(** * ST-LINK GDB server runner: debug session planning

    A shallow embedding of [scripts/west_commands/runners/stlink_gdbserver.py]
    (class [STLinkGDBServerRunner]) and the properties of its decision logic:
    toolchain selection, boot-mode detection and the construction of the
    server and debugger command lines.

    Python [int] is unbounded, hence [Z].  Python [str] values are modelled as
    [string], i.e. as ASCII text.  [pathlib], [shutil], [platform], the file
    system and the [readelf] subprocess are outside the program: they are the
    fields of the record [Host].  Of [runners.core] the runner uses [require],
    [check_call] and [run_server_and_client]; the last two end a run and are
    the constructors of [spawn]. *)

From Stdlib Require Import ZArith List String Ascii Bool Lia Permutation.
From Stdlib Require Import DecimalString.
Import ListNotations.

Local Open Scope string_scope.
Local Open Scope Z_scope.

(** ** Python built-ins used by the runner *)

Module Py.

(** [s.startswith(p)] *)
Definition startswith (s p : string) : bool := String.prefix p s.

(** [sub in s] *)
Fixpoint contains (sub s : string) : bool :=
  String.prefix sub s
  || match s with
     | EmptyString => false
     | String _ s' => contains sub s'
     end.

(** [s.split(sep)] for a one-character separator: never the empty list. *)
Fixpoint split (sep : ascii) (s : string) : list string :=
  match s with
  | EmptyString => [EmptyString]
  | String c s' =>
      if Ascii.eqb c sep then EmptyString :: split sep s'
      else match split sep s' with
           | [] => [String c EmptyString]
           | w :: ws => String c w :: ws
           end
  end.

(** [c.isspace()] on ASCII: tab, LF, VT, FF, CR, FS, GS, RS, US, space. *)
Definition isspace (c : ascii) : bool :=
  let n := nat_of_ascii c in
  ((9 <=? n) && (n <=? 13) || (28 <=? n) && (n <=? 32))%nat.

Fixpoint lstrip (s : string) : string :=
  match s with
  | EmptyString => EmptyString
  | String c s' => if isspace c then lstrip s' else s
  end.

Fixpoint rstrip (s : string) : string :=
  match s with
  | EmptyString => EmptyString
  | String c s' =>
      match rstrip s' with
      | EmptyString => if isspace c then EmptyString else String c EmptyString
      | r => String c r
      end
  end.

(** [s.strip()] *)
Definition strip (s : string) : string := rstrip (lstrip s).

(** [s.replace(old, new)] for a non-empty [old]: occurrences are replaced
    from the left and do not overlap; [skip] counts the characters of the
    occurrence just replaced that are still to be dropped. *)
Fixpoint replace_from (skip : nat) (old new s : string) : string :=
  match s with
  | EmptyString => EmptyString
  | String c s' =>
      match skip with
      | S k => replace_from k old new s'
      | O =>
          if String.prefix old s
          then new ++ replace_from (String.length old - 1) old new s'
          else String c (replace_from O old new s')
      end
  end.

Definition replace (s old new : string) : string := replace_from O old new s.

(** [s[:n]] *)
Definition slice_to (n : nat) (s : string) : string := String.substring 0 n s.

(** [xs[i]] on a list; [None] stands for [IndexError]. *)
Definition index {A} (xs : list A) (i : nat) : option A := nth_error xs i.

(** [str(n)] for an [int] *)
Definition str (n : Z) : string := NilZero.string_of_int (Z.to_int n).

(** [str(x)] for an [int | None] *)
Definition str_opt (x : option Z) : string :=
  match x with
  | Some n => str n
  | None => "None"
  end.

(** Truth value of a [str | None]: [None] and the empty string are false. *)
Definition truthy (x : option string) : bool :=
  match x with
  | Some (String _ _) => true
  | _ => false
  end.

(** *** [int(s, 16)] *)

Definition hex_digit (c : ascii) : option Z :=
  let n := Z.of_nat (nat_of_ascii c) in
  if (48 <=? n) && (n <=? 57) then Some (n - 48)
  else if (97 <=? n) && (n <=? 102) then Some (n - 87)
  else if (65 <=? n) && (n <=? 70) then Some (n - 55)
  else None.

(** Digits with single underscores between them; [acc] is the value read so
    far and [after_digit] tells whether the previous character was a digit:
    an underscore is accepted only there, and the text ends on a digit. *)
Fixpoint hex_digits (after_digit : bool) (acc : Z) (s : string) : option Z :=
  match s with
  | EmptyString => if after_digit then Some acc else None
  | String c s' =>
      if Ascii.eqb c "_"%char
      then if after_digit then hex_digits false acc s' else None
      else match hex_digit c with
           | Some d => hex_digits true (16 * acc + d) s'
           | None => None
           end
  end.

(** After the sign: an optional [0x] or [0X], which may be followed by one
    underscore, then the digits. *)
Definition hex_unsigned (s : string) : option Z :=
  match s with
  | String "0" (String x s') =>
      if Ascii.eqb x "x"%char || Ascii.eqb x "X"%char
      then match s' with
           | String "_" s'' => hex_digits false 0 s''
           | _ => hex_digits false 0 s'
           end
      else hex_digits false 0 s
  | _ => hex_digits false 0 s
  end.

(** [int(s, 16)]; [None] stands for [ValueError]. *)
Definition int16 (s : string) : option Z :=
  match strip s with
  | String "-" s' => option_map Z.opp (hex_unsigned s')
  | String "+" s' => hex_unsigned s'
  | s' => hex_unsigned s'
  end.

(** [int(s)] on a non-empty run of decimal digits, as the regular
    expression's [\d+] groups deliver them. *)
Definition isdigit (c : ascii) : bool :=
  let n := nat_of_ascii c in ((48 <=? n) && (n <=? 57))%nat.

Fixpoint int_digits (acc : Z) (s : string) : Z :=
  match s with
  | EmptyString => acc
  | String c s' => int_digits (10 * acc + (Z.of_nat (nat_of_ascii c) - 48)) s'
  end.

Definition int (s : string) : Z := int_digits 0 s.

(** [c.lower()] on ASCII, for case-insensitive matching. *)
Definition lower (c : ascii) : ascii :=
  let n := nat_of_ascii c in
  if ((65 <=? n) && (n <=? 90))%nat then ascii_of_nat (n + 32) else c.

End Py.

(** ** Results and exceptions *)

(** The exceptions the runner raises, with their messages. *)
Inductive exn : Type :=
| AssertionError
| ValueError (msg : string)
| RuntimeError (msg : string)
| MissingProgram (program : string).

Inductive result (A : Type) : Type :=
| Ok (a : A)
| Raise (e : exn).

Arguments Ok {A} a.
Arguments Raise {A} e.

Definition bind {A B} (m : result A) (f : A -> result B) : result B :=
  match m with
  | Ok a => f a
  | Raise e => Raise e
  end.

Notation "x <- m ;; k" := (bind m (fun x => k))
  (at level 61, m at next level, right associativity).
Notation "m ;;; k" := (bind m (fun _ => k))
  (at level 61, right associativity).

(** ** The host: pathlib, shutil, platform, files and subprocesses *)

(** A [pathlib.Path] is represented by its [str()]. *)
Record Host : Type := {
  Path : string -> string;                (* Path(s) *)
  joinpath : string -> string -> string;  (* p / s *)
  parent : string -> string;              (* p.parent *)
  name : string -> string;                (* p.name *)
  absolute : string -> string;            (* p.absolute() *)
  as_posix : string -> string;            (* p.as_posix() *)
  path_exists : string -> bool;           (* p.exists() *)
  is_dir : string -> bool;                (* p.is_dir() *)
  iterdir : string -> list string;        (* list(p.iterdir()) *)
  platform_system : string;               (* platform.system() *)
  which : string -> option string;        (* shutil.which(s) *)
  (* stdout of [arm-none-eabi-readelf -h elf]; [None] when [subprocess.run]
     raises (program missing, non-zero exit status) *)
  readelf_h : string -> option string;
  (* the lines that iterating over [open(p, 'r')] yields before the end of
     the file or an exception; no line when the file cannot be opened *)
  read_lines : string -> list string;
}.

(** ** Toolchain locator: [_get_stm32cubeclt_paths] *)

Module CubeCLT.

(** [re.compile(r"stm32cubeclt_([1-9]).(\d+).(\d+)", re.IGNORECASE).match]:
    the match is anchored at the start of the name only, the dots are
    unescaped and stand for any character but a newline, and the groups are
    greedy with backtracking. *)

(** The literal [stm32cubeclt_], letters compared without case. *)
Fixpoint match_literal (lit s : string) : option string :=
  match lit with
  | EmptyString => Some s
  | String l lit' =>
      match s with
      | String c s' =>
          if Ascii.eqb (Py.lower c) l then match_literal lit' s' else None
      | EmptyString => None
      end
  end.

(** [.] *)
Definition any_char (c : ascii) : bool := negb (Ascii.eqb c "010"%char).

(** [[1-9]] *)
Definition digit_1_9 (c : ascii) : bool :=
  let n := nat_of_ascii c in ((49 <=? n) && (n <=? 57))%nat.

(** The longest run of digits at the start of [s]. *)
Fixpoint digits_prefix (s : string) : string :=
  match s with
  | String c s' => if Py.isdigit c then String c (digits_prefix s') else EmptyString
  | EmptyString => EmptyString
  end.

(** [.(\d+)] at the end of the pattern: the last group. *)
Definition dot_digits (s : string) : option string :=
  match s with
  | String c s' =>
      if any_char c
      then match digits_prefix s' with
           | EmptyString => None
           | d => Some d
           end
      else None
  | EmptyString => None
  end.

(** [\d*.(\d+)], greedy: one more digit is taken first, and given back when
    the rest of the pattern does not match after it.  The result is the text
    of the digits taken and the last group. *)
Fixpoint digits_dot_digits (s : string) : option (string * string) :=
  match s with
  | String c s' =>
      if Py.isdigit c
      then match digits_dot_digits s' with
           | Some (g, g3) => Some (String c g, g3)
           | None => option_map (pair EmptyString) (dot_digits s)
           end
      else option_map (pair EmptyString) (dot_digits s)
  | EmptyString => None
  end.

(** The groups [m[1]], [m[2]], [m[3]] of a match, [None] when there is none. *)
Definition CUBECLT_FLDR_RE_match (s : string) : option (string * string * string) :=
  match match_literal "stm32cubeclt_" s with
  | Some (String c1 (String c2 (String c3 rest))) =>
      if digit_1_9 c1 && any_char c2 && Py.isdigit c3
      then match digits_dot_digits rest with
           | Some (g, g3) => Some (String c1 EmptyString, String c3 g, g3)
           | None => None
           end
      else None
  | _ => None
  end.

(** [major * 1000000 + minor * 1000 + revis] *)
Definition ver_num (major minor revis : Z) : Z :=
  major * 1000000 + minor * 1000 + revis.

(** [sorted(l, key=lambda e: e[0], reverse=True)]: descending and stable,
    entries of equal key keep their order. *)
Fixpoint insert_desc {A} (x : Z * A) (l : list (Z * A)) : list (Z * A) :=
  match l with
  | [] => [x]
  | y :: l' => if fst x <? fst y then y :: insert_desc x l' else x :: l
  end.

Fixpoint sorted_reverse {A} (l : list (Z * A)) : list (Z * A) :=
  match l with
  | [] => []
  | x :: l' => insert_desc x (sorted_reverse l')
  end.

Section Locator.

Variable h : Host.

Local Notation "p // s" := (joinpath h p s) (at level 40, left associativity).

(** The list [installations] built by the loop over [tools_folder.iterdir()]. *)
Definition installations (entries : list string) : list (Z * string) :=
  flat_map
    (fun f =>
       match CUBECLT_FLDR_RE_match (name h f) with
       | Some (m1, m2, m3) => [(ver_num (Py.int m1) (Py.int m2) (Py.int m3), f)]
       | None => []
       end)
    entries.

Definition find_highest_clt_version (tools_folder : string) : option string :=
  if negb (is_dir h tools_folder) then None
  else
    match sorted_reverse (installations (iterdir h tools_folder)) with
    | [] => None
    | most_recent_install :: _ => Some (snd most_recent_install)
    end.

(** The attempt through [shutil.which], on Linux and Windows only. *)
Definition paths_from_which : option (string * string) :=
  let cur_platform := platform_system h in
  if String.eqb cur_platform "Linux" || String.eqb cur_platform "Windows"
  then
    let gdbserv := which h "ST-LINK_gdbserver" in
    let cubeprg := which h "STM32_Programmer_CLI" in
    match gdbserv, cubeprg with
    | Some g, Some c =>
        if Py.truthy gdbserv && Py.truthy cubeprg
        then Some (Path h g, parent h (Path h c))
        else None
    | _, _ => None
    end
  else None.

(** [search_path] and [tool_suffix] of the platform. *)
Definition os_search_path : result (string * string) :=
  let cur_platform := platform_system h in
  if String.eqb cur_platform "Linux" then Ok ("/opt/st/", "")
  else if String.eqb cur_platform "Windows" then Ok ("C:\ST\", ".exe")
  else if String.eqb cur_platform "Darwin" then Ok ("/opt/ST/", "")
  else Raise (RuntimeError "Unsupported OS").

(** The pair (server executable, [STM32CubeProgrammer/bin] folder). *)
Definition _get_stm32cubeclt_paths : result (string * string) :=
  match paths_from_which with
  | Some found => Ok found
  | None =>
      sp <- os_search_path ;;
      let '(search_path, tool_suffix) := sp in
      match find_highest_clt_version (Path h search_path) with
      | None => Raise (MissingProgram "ST-LINK_gdbserver (from STM32CubeCLT)")
      | Some clt =>
          let gdbserver_path :=
            clt // "STLink-gdb-server" // "bin" // ("ST-LINK_gdbserver" ++ tool_suffix) in
          let cubeprg_bin_path := clt // "STM32CubeProgrammer" // "bin" in
          Ok (gdbserver_path, cubeprg_bin_path)
      end
  end.

End Locator.

End CubeCLT.

(** ** The runner *)

Definition STLINK_GDB_SERVER_DEFAULT_PORT : Z := 61234.

(** The fields of [self], with the three fields of [self.cfg] the runner
    reads. *)
Record Runner : Type := {
  elf_file : option string;        (* cfg.elf_file *)
  build_dir : string;              (* cfg.build_dir *)
  gdb : option string;             (* cfg.gdb *)
  _swd : bool;
  _gdb_port : Z;
  _stlink_serial : option string;
  _ap_id : option Z;
  _external_loader : option string;
  _do_external_init : bool;
  _two_boot_stage : bool;
  _mcuboot_offset : string;
}.

(** [__init__]: the offset defaults to [0x08040000] when absent or empty.
    The call of [ensure_output], which refuses a configuration without ELF,
    is left to [runners.core]; the run asserts the ELF again. *)
Definition __init__ (cfg_elf_file : option string) (cfg_build_dir : string)
    (cfg_gdb : option string) (swd : bool) (ap_id : option Z)
    (stlink_serial : option string) (gdb_port : Z)
    (external_loader : option string) (external_init : bool)
    (two_boot_stage : bool) (mcuboot_offset : option string) : Runner :=
  {| elf_file := cfg_elf_file;
     build_dir := cfg_build_dir;
     gdb := cfg_gdb;
     _swd := swd;
     _gdb_port := gdb_port;
     _stlink_serial := stlink_serial;
     _ap_id := ap_id;
     _external_loader := external_loader;
     _do_external_init := external_init;
     _two_boot_stage := two_boot_stage;
     _mcuboot_offset :=
       match mcuboot_offset with
       | Some (String c o) => String c o
       | _ => "0x08040000"
       end |}.

(** What the runner finally asks the framework to execute. *)
Inductive spawn : Type :=
| check_call (cmd : list string)
| run_server_and_client (server client : list string).

(** [_is_fsbl_mode]: the FSBL region [0x34180000 - 0x3418FFFF]. *)
Definition _is_fsbl_mode (start_address : Z) : bool :=
  Z.land start_address 0xFFFF0000 =? 0x34180000.

(** [_is_ram_mode]: the RAM region [0x34000000 - 0x3417FFFF]. *)
Definition _is_ram_mode (start_address : Z) : bool :=
  (0x34000000 <=? start_address) && (start_address <? 0x34180000).

(** The condition of the [elif] that selects the two boot stage commands. *)
Definition two_boot_layer_stage (is_fsbl is_ram : bool) (soc : string) : bool :=
  negb is_fsbl && negb is_ram && String.eqb soc "STM32N6".

Section Run.

Variable h : Host.

Local Notation "p // s" := (joinpath h p s) (at level 40, left associativity).

(** The loop of [_get_start_address] over the lines of the header dump; an
    exception raised inside it ([IndexError], [ValueError]) is [None]. *)
Fixpoint entry_point_of_lines (lines : list string) : option Z :=
  match lines with
  | [] => Some 0
  | line :: lines' =>
      if Py.contains "Entry point address" line
      then match Py.index (Py.split ":" line) 1 with
           | Some field => Py.int16 (Py.strip field)
           | None => None
           end
      else entry_point_of_lines lines'
  end.

(** [_get_start_address]: every exception is caught and gives 0. *)
Definition _get_start_address (self : Runner) : Z :=
  match elf_file self with
  | None => 0
  | Some elf =>
      match readelf_h h elf with
      | None => 0
      | Some stdout =>
          match entry_point_of_lines (Py.split "010" stdout) with
          | Some addr => addr
          | None => 0
          end
      end
  end.

(** The loop of [_get_stm32_soc] over the lines of the configuration. *)
Fixpoint soc_of_lines (lines : list string) : string :=
  match lines with
  | [] => "unknown"
  | line :: lines' =>
      if Py.startswith line "CONFIG_SOC_SERIES_STM32" && Py.contains "=y" line
      then
        let soc_series :=
          Py.strip
            (Py.replace (nth 0 (Py.split "=" line) EmptyString)
                        "CONFIG_SOC_SERIES_" EmptyString) in
        Py.slice_to 7 soc_series
      else soc_of_lines lines'
  end.

Definition _get_stm32_soc (self : Runner) : string :=
  let config_file := Path h (build_dir self) // "zephyr" // ".config" in
  if negb (path_exists h config_file) then "unknown"
  else soc_of_lines (read_lines h config_file).

Definition _find_mcuboot_elf (self : Runner) : result string :=
  let mcuboot_elf := Path h (build_dir self) // "mcuboot" // "zephyr" // "zephyr.elf" in
  if path_exists h mcuboot_elf then Ok (as_posix h mcuboot_elf)
  else
    let mcuboot_elf_alt :=
      parent h (Path h (build_dir self)) // "mcuboot" // "zephyr" // "zephyr.elf" in
    if path_exists h mcuboot_elf_alt then Ok (as_posix h mcuboot_elf_alt)
    else Raise (RuntimeError
      "MCUboot ELF not found. For --flash mode with sysbuild, MCUboot must be built (use --sysbuild flag)").

(** Modelled from the spec: [require] belongs to [runners.core], which is not
    among the sources; an executable that cannot be located is an error
    raised before anything is spawned. *)
Definition require (program : string) : result unit :=
  match which h program with
  | Some _ => Ok tt
  | None => Raise (MissingProgram program)
  end.

(** [script_content] of [_create_mcuboot_debug_script], the text of the
    temporary GDB script for two-phase debugging.  No path of the runner
    calls this method: its only call is commented out. *)
Definition script_content (self : Runner) (app_elf_path : string) : string :=
  "
            # ============================================================
            # PHASE 1: RUN MCUBOOT AND INITIALIZE EXTERNAL FLASH
            # ============================================================
            target remote :" ++ Py.str (_gdb_port self) ++ "
            #monitor reset halt
            
            # Load MCUboot into device
            load
            
            # Break at boot_go (before jumping to app)
            hbreak boot_go
            continue
            
            # Step through external flash initialization
            next
            next
            
            # ============================================================
            # PHASE 2: EXTERNAL FLASH READY - LOAD APP SYMBOLS
            # ============================================================
            
            # Add application symbols at correct offset
            add-symbol-file " ++ app_elf_path ++ " " ++ _mcuboot_offset self ++ "
            
            # Set breakpoint in app
            break main
            
            # Continue into application
            continue
            ".

(** The debugger arguments of the two boot stage branch. *)
Definition two_phase_gdb_args (self : Runner) (elf_path mcuboot_elf : string)
  : list string :=
  [ "-ex"; "target remote :" ++ Py.str (_gdb_port self);
    "-ex"; "load";
    "-ex"; "hbreak boot_go";
    "-ex"; "continue";
    "-ex"; "set confirm off";
    "-ex"; "add-symbol-file " ++ elf_path;
    "-ex"; "set confirm on";
    "-ex"; "break main";
    "-ex"; "continue";
    mcuboot_elf ].

Definition do_attach_debug_debugserver (self : Runner) (command : string)
  : result spawn :=
  match elf_file self with
  | None => Raise AssertionError
  | Some elf =>
      let elf_path := as_posix h (Path h elf) in
      (* Detect SoC and execution mode *)
      let soc := _get_stm32_soc self in
      let start_address := _get_start_address self in
      let is_fsbl := _is_fsbl_mode start_address in
      let is_ram := _is_ram_mode start_address in
      let gdb_args :=
        ["-ex"; "target remote :" ++ Py.str (_gdb_port self); elf_path] in
      paths <- CubeCLT._get_stm32cubeclt_paths h ;;
      let gdbserver_path := fst paths in
      let cubeprg_path := snd paths in
      let gdbserver_cmd := [as_posix h gdbserver_path] in
      let gdbserver_cmd :=
        (gdbserver_cmd ++ ["--stm32cubeprogrammer-path"; absolute h cubeprg_path])%list in
      let gdbserver_cmd :=
        (gdbserver_cmd ++ ["--port-number"; Py.str (_gdb_port self)])%list in
      let gdbserver_cmd := (gdbserver_cmd ++ ["--apid"; Py.str_opt (_ap_id self)])%list in
      let gdbserver_cmd := (gdbserver_cmd ++ ["--halt"])%list in
      let gdbserver_cmd :=
        if _swd self then (gdbserver_cmd ++ ["--swd"])%list else gdbserver_cmd in
      cmds <-
        (if String.eqb command "attach"
         then Ok ((gdbserver_cmd ++ ["--attach"])%list, gdb_args)
         else if two_boot_layer_stage is_fsbl is_ram soc
         then
           (* Flash mode: debug the application already in flash, no reset *)
           let gdbserver_cmd := (gdbserver_cmd ++ ["--attach"])%list in
           mcuboot_elf <- _find_mcuboot_elf self ;;
           Ok (gdbserver_cmd, two_phase_gdb_args self elf_path mcuboot_elf)
         else
           Ok ((gdbserver_cmd ++ ["--initialize-reset"])%list,
               (gdb_args ++ ["-ex"; ("load " ++ elf_path)%string])%list)) ;;
      let gdbserver_cmd := fst cmds in
      let gdb_args := snd cmds in
      let gdbserver_cmd :=
        match _stlink_serial self with
        | Some (String c s) => (gdbserver_cmd ++ ["--serial-number"; String c s])%list
        | _ => gdbserver_cmd
        end in
      gdbserver_cmd <-
        match _external_loader self with
        | Some (String c s) =>
            let external_loader := String c s in
            let extldr_path := cubeprg_path // "ExternalLoader" // external_loader in
            if negb (path_exists h extldr_path)
            then Raise (RuntimeError
                          ("External loader " ++ external_loader ++ " does not exist"))
            else
              let gdbserver_cmd :=
                if _do_external_init self
                then (gdbserver_cmd ++ ["--external-init"])%list else gdbserver_cmd in
              Ok ((gdbserver_cmd ++ ["--extload"; extldr_path])%list)
        | _ => Ok gdbserver_cmd
        end ;;
      require (hd EmptyString gdbserver_cmd) ;;;
      if String.eqb command "debugserver"
      then Ok (check_call gdbserver_cmd)
      else
        match gdb self with
        | None => Raise (RuntimeError "GDB is required for attach/debug")
        | Some gdb_exe =>
            let gdb_cmd := gdb_exe :: gdb_args in
            require (hd EmptyString gdb_cmd) ;;;
            Ok (run_server_and_client gdbserver_cmd gdb_cmd)
        end
  end.

Definition do_run (self : Runner) (command : string) : result spawn :=
  if existsb (String.eqb command) ["attach"; "debug"; "debugserver"]
  then do_attach_debug_debugserver self command
  else Raise (ValueError (command ++ " not supported")).

End Run.

(** ** The vocabulary of the specification *)

Inductive ExecutionMode : Type := FSBL | RAM | FlashChained | Unknown.

Inductive SessionIntent : Type := Attach | DebugNew | ServerOnly.

(** The command of the runner that expresses an intent. *)
Definition command_of (intent : SessionIntent) : string :=
  match intent with
  | Attach => "attach"
  | DebugNew => "debug"
  | ServerOnly => "debugserver"
  end.

(** The classification policy as the specification words it: ordered, the
    first match wins.  The runner has no such function; it computes the two
    region tests and the condition of its two boot stage branch. *)
Definition classify (entryPointAddress : Z) (socFamily : string) : ExecutionMode :=
  if Z.land entryPointAddress 0xFFFF0000 =? 0x34180000 then FSBL
  else if (0x34000000 <=? entryPointAddress) && (entryPointAddress <? 0x34180000)
       then RAM
  else if String.eqb socFamily "STM32N6" then FlashChained
  else Unknown.

(** The entry point is unreadable: no ELF is configured, or [readelf] fails,
    or its output has no line on the entry point, or that line has no field
    after the colon or one that is no hexadecimal number. *)
Inductive EntryPointUnreadable (h : Host) (self : Runner) : Prop :=
| no_elf_file :
    elf_file self = None -> EntryPointUnreadable h self
| readelf_fails (elf : string) :
    elf_file self = Some elf -> readelf_h h elf = None ->
    EntryPointUnreadable h self
| no_entry_line (elf stdout : string) :
    elf_file self = Some elf -> readelf_h h elf = Some stdout ->
    (forall line, In line (Py.split "010" stdout) ->
                  Py.contains "Entry point address" line = false) ->
    EntryPointUnreadable h self
| bad_entry_line (elf stdout : string) :
    elf_file self = Some elf -> readelf_h h elf = Some stdout ->
    entry_point_of_lines (Py.split "010" stdout) = None ->
    EntryPointUnreadable h self.

(** The mode of one run: classification of what the runner reads. *)
Definition mode_of (h : Host) (self : Runner) : ExecutionMode :=
  classify (_get_start_address h self) (_get_stm32_soc h self).

(** A version, and the order of versions: lexicographic on the triple. *)
Definition version : Type := (Z * Z * Z)%type.

Definition version_lt (v w : version) : Prop :=
  let '(a, b, c) := v in
  let '(a', b', c') := w in
  a < a' \/ (a = a' /\ (b < b' \/ (b = b' /\ c < c'))).

Definition linearize (v : version) : Z :=
  let '(a, b, c) := v in CubeCLT.ver_num a b c.

(** Minor and patch numbers below 1000, the range in which the weights
    1000000 and 1000 keep the three numbers apart. *)
Definition below_1000 (v : version) : Prop :=
  let '(_, b, c) := v in 0 <= b < 1000 /\ 0 <= c < 1000.

(** The scan of the specification's example. *)
Definition example_scan : list string :=
  ["stm32cubeclt_2.1.0"; "stm32cubeclt_1.9.9"; "stm32cubeclt_2.0.99"].

(** *** Reading a command plan *)

Definition server_of (s : spawn) : list string :=
  match s with
  | check_call cmd => cmd
  | run_server_and_client server _ => server
  end.

Definition client_of (s : spawn) : option (list string) :=
  match s with
  | check_call _ => None
  | run_server_and_client _ client => Some client
  end.

(** The debugger commands of an argument list: what follows each [-ex]. *)
Fixpoint ex_commands (args : list string) : list string :=
  match args with
  | [] => []
  | a :: rest =>
      if String.eqb a "-ex"
      then match rest with
           | c :: rest' => c :: ex_commands rest'
           | [] => []
           end
      else ex_commands rest
  end.

(** The debugger commands of a plan: those of the client's arguments, the
    executable left out; none when no client is started. *)
Definition debugger_commands (s : spawn) : list string :=
  match client_of s with
  | Some client => ex_commands (tl client)
  | None => []
  end.

(** The options of the server that are followed by a value. *)
Definition takes_value (o : string) : bool :=
  existsb (String.eqb o)
    ["--stm32cubeprogrammer-path"; "--port-number"; "--apid";
     "--serial-number"; "--extload"].

(** The flags of an argument list: the values of the options are left out. *)
Fixpoint flags_of (args : list string) : list string :=
  match args with
  | [] => []
  | o :: rest =>
      if takes_value o
      then match rest with
           | _ :: rest' => flags_of rest'
           | [] => [o]
           end
      else o :: flags_of rest
  end.

(** The flags of a server command line, the executable left out. *)
Definition server_flags (cmd : list string) : list string := flags_of (tl cmd).

(** *** The segments of the server command line *)

Section Segments.

Variable h : Host.
Variable self : Runner.

Definition base_args (gdbserver_path cubeprg_path : string) : list string :=
  [ as_posix h gdbserver_path;
    "--stm32cubeprogrammer-path"; absolute h cubeprg_path;
    "--port-number"; Py.str (_gdb_port self);
    "--apid"; Py.str_opt (_ap_id self);
    "--halt" ].

Definition swd_args : list string :=
  if _swd self then ["--swd"] else [].

Definition serial_args : list string :=
  match _stlink_serial self with
  | Some (String c s) => ["--serial-number"; String c s]
  | _ => []
  end.

Definition extldr_path_of (cubeprg_path external_loader : string) : string :=
  joinpath h (joinpath h cubeprg_path "ExternalLoader") external_loader.

Definition extload_args (cubeprg_path : string) : list string :=
  match _external_loader self with
  | Some (String c s) =>
      ((if _do_external_init self then ["--external-init"] else [])
       ++ ["--extload"; extldr_path_of cubeprg_path (String c s)])%list
  | _ => []
  end.

(** The flag the loader's initialisation adds. *)
Definition external_init_flags : list string :=
  match _external_loader self with
  | Some (String _ _) => if _do_external_init self then ["--external-init"] else []
  | _ => []
  end.

(** The external loader is configured and its file is absent. *)
Definition extload_missing (cubeprg_path : string) : option string :=
  match _external_loader self with
  | Some (String c s) =>
      if path_exists h (extldr_path_of cubeprg_path (String c s))
      then None else Some (String c s)
  | _ => None
  end.

(** The debugger arguments that only connect. *)
Definition connect_args (elf_path : string) : list string :=
  ["-ex"; "target remote :" ++ Py.str (_gdb_port self); elf_path].

(** The three-way branch on the command and the mode: the flag it adds to
    the server and the debugger arguments it chooses. *)
Definition branch (command elf_path : string) : result (string * list string) :=
  if String.eqb command "attach" then Ok ("--attach", connect_args elf_path)
  else if two_boot_layer_stage
            (_is_fsbl_mode (_get_start_address h self))
            (_is_ram_mode (_get_start_address h self))
            (_get_stm32_soc h self)
  then
    mcuboot_elf <- _find_mcuboot_elf h self ;;
    Ok ("--attach", two_phase_gdb_args self elf_path mcuboot_elf)
  else
    Ok ("--initialize-reset",
        (connect_args elf_path ++ ["-ex"; ("load " ++ elf_path)%string])%list).

Definition server_args (gdbserver_path cubeprg_path flag : string) : list string :=
  (base_args gdbserver_path cubeprg_path ++ swd_args ++ [flag]
   ++ serial_args ++ extload_args cubeprg_path)%list.

(** The run in terms of the segments: the order of the steps that can fail,
    and the command lines at the end. *)
Definition planned (command : string) : result spawn :=
  match elf_file self with
  | None => Raise AssertionError
  | Some elf =>
      paths <- CubeCLT._get_stm32cubeclt_paths h ;;
      chosen <- branch command (as_posix h (Path h elf)) ;;
      match extload_missing (snd paths) with
      | Some external_loader =>
          Raise (RuntimeError
                   ("External loader " ++ external_loader ++ " does not exist"))
      | None =>
          let server := server_args (fst paths) (snd paths) (fst chosen) in
          require h (as_posix h (fst paths)) ;;;
          if String.eqb command "debugserver" then Ok (check_call server)
          else
            match gdb self with
            | None => Raise (RuntimeError "GDB is required for attach/debug")
            | Some gdb_exe =>
                require h gdb_exe ;;;
                Ok (run_server_and_client server (gdb_exe :: snd chosen))
            end
      end
  end.

End Segments.

(** ** A concrete host, for running the runner on examples *)

Module Sample.

(** A POSIX-like host described by what it contains. *)
Record Disk : Type := {
  files : list string;                       (* existing files *)
  texts : list (string * list string);       (* readable text files, by lines *)
  folders : list (string * list string);     (* directories and their entries *)
  programs : list (string * string);         (* what [which] resolves *)
  system : string;                           (* the platform *)
  readelf_stdout : option string;            (* the header dump of any ELF *)
}.

Fixpoint lookup {A} (k : string) (l : list (string * A)) : option A :=
  match l with
  | [] => None
  | (k', v) :: l' => if String.eqb k k' then Some v else lookup k l'
  end.

(** The components of a path, and the path of components. *)
Definition parts (p : string) : list string := Py.split "/" p.

Fixpoint join_parts (l : list string) : string :=
  match l with
  | [] => EmptyString
  | [x] => x
  | x :: l' => x ++ "/" ++ join_parts l'
  end.

(** [Path(s)]: a trailing slash is dropped. *)
Definition normal (s : string) : string :=
  match rev (parts s) with
  | EmptyString :: (_ :: _) as l => join_parts (rev l)
  | _ => s
  end.

Definition host_of (d : Disk) : Host :=
  {| Path := normal;
     joinpath := fun p s => p ++ "/" ++ s;
     parent := fun p => join_parts (removelast (parts p));
     name := fun p => last (parts p) EmptyString;
     absolute := fun p => p;
     as_posix := fun p => p;
     path_exists := fun p =>
       existsb (String.eqb p) (files d)
       || existsb (String.eqb p) (map fst (texts d))
       || existsb (String.eqb p) (map fst (folders d));
     is_dir := fun p => existsb (String.eqb p) (map fst (folders d));
     iterdir := fun p =>
       match lookup p (folders d) with
       | Some entries => map (fun e => p ++ "/" ++ e) entries
       | None => []
       end;
     platform_system := system d;
     which := fun s => lookup s (programs d);
     readelf_h := fun _ => readelf_stdout d;
     read_lines := fun p =>
       match lookup p (texts d) with
       | Some lines => lines
       | None => []
       end |}.

(** The tools on the executable search path. *)
Definition on_path : list (string * string) :=
  [ ("ST-LINK_gdbserver", "/opt/st/clt/gdbserver/bin/ST-LINK_gdbserver");
    ("STM32_Programmer_CLI", "/opt/st/clt/prog/bin/STM32_Programmer_CLI");
    ("/opt/st/clt/gdbserver/bin/ST-LINK_gdbserver",
     "/opt/st/clt/gdbserver/bin/ST-LINK_gdbserver");
    ("arm-none-eabi-gdb", "/usr/bin/arm-none-eabi-gdb") ].

(** The header dump of an ELF whose entry point is [entry], given in
    hexadecimal text. *)
Definition header_dump (entry : string) : string :=
  "ELF Header:
  Class:                             ELF32
  Entry point address:               " ++ entry ++ "
  Start of program headers:          52 (bytes into file)
".

Definition config_n6 : list string :=
  [ "# Generated configuration
"; "CONFIG_SOC_SERIES_STM32N6X=y
"; "CONFIG_BOARD=stm32n6570_dk
" ].

Definition config_f4 : list string :=
  [ "CONFIG_SOC_SERIES_STM32F4X=y
" ].

(** An application linked into the FSBL region, SoC STM32N6. *)
Definition disk_fsbl : Disk :=
  {| files := ["build/zephyr/zephyr.elf"];
     texts := [("build/zephyr/.config", config_n6)];
     folders := [];
     programs := on_path;
     system := "Linux";
     readelf_stdout := Some (header_dump "0x34185000") |}.

(** An application in flash behind the bootloader, SoC STM32N6, the
    bootloader built by sysbuild. *)
Definition disk_chained : Disk :=
  {| files := ["build/zephyr/zephyr.elf"; "build/mcuboot/zephyr/zephyr.elf"];
     texts := [("build/zephyr/.config", config_n6)];
     folders := [];
     programs := on_path;
     system := "Linux";
     readelf_stdout := Some (header_dump "0x08040000") |}.

(** The same application, the bootloader not built. *)
Definition disk_chained_no_mcuboot : Disk :=
  {| files := ["build/zephyr/zephyr.elf"];
     texts := [("build/zephyr/.config", config_n6)];
     folders := [];
     programs := on_path;
     system := "Linux";
     readelf_stdout := Some (header_dump "0x08040000") |}.

(** SoC STM32N6, the entry point unreadable: [readelf] fails. *)
Definition disk_unreadable : Disk :=
  {| files := ["build/zephyr/zephyr.elf"];
     texts := [("build/zephyr/.config", config_n6)];
     folders := [];
     programs := on_path;
     system := "Linux";
     readelf_stdout := None |}.

(** A conventional flash target, SoC STM32F4. *)
Definition disk_f4 : Disk :=
  {| files := ["build/zephyr/zephyr.elf"];
     texts := [("build/zephyr/.config", config_f4)];
     folders := [];
     programs := on_path;
     system := "Linux";
     readelf_stdout := Some (header_dump "0x08040000") |}.

(** No tool on the search path; installations under [/opt/st]. *)
Definition disk_scan (entries : list string) : Disk :=
  {| files := [];
     texts := [];
     folders := [("/opt/st", entries)];
     programs := [];
     system := "Linux";
     readelf_stdout := None |}.

(** A runner created with the defaults of the command line. *)
Definition runner (swd : bool) (external_loader mcuboot_offset : option string)
    (two_boot_stage : bool) : Runner :=
  __init__ (Some "build/zephyr/zephyr.elf") "build" (Some "arm-none-eabi-gdb")
    swd (Some 0) None STLINK_GDB_SERVER_DEFAULT_PORT
    external_loader false two_boot_stage mcuboot_offset.

Definition default_runner : Runner := runner true None None false.

(** The command line of the server on these hosts, up to its last flags. *)
Definition server_line (flags : list string) : list string :=
  ["/opt/st/clt/gdbserver/bin/ST-LINK_gdbserver";
   "--stm32cubeprogrammer-path"; "/opt/st/clt/prog/bin";
   "--port-number"; "61234"; "--apid"; "0"; "--halt"] ++ flags.

(** The plan of an attach on these hosts. *)
Definition attach_spawn : spawn :=
  run_server_and_client (server_line ["--swd"; "--attach"])
    ["arm-none-eabi-gdb"; "-ex"; "target remote :61234"; "build/zephyr/zephyr.elf"].

(** The plan of a debug session on [disk_f4] with SWD disabled. *)
Definition reset_spawn_no_swd : spawn :=
  run_server_and_client (server_line ["--initialize-reset"])
    ["arm-none-eabi-gdb"; "-ex"; "target remote :61234"; "build/zephyr/zephyr.elf";
     "-ex"; "load build/zephyr/zephyr.elf"].

(** The plan of a debug session on [disk_chained]. *)
Definition two_phase_spawn : spawn :=
  run_server_and_client (server_line ["--swd"; "--attach"])
    ["arm-none-eabi-gdb";
     "-ex"; "target remote :61234";
     "-ex"; "load";
     "-ex"; "hbreak boot_go";
     "-ex"; "continue";
     "-ex"; "set confirm off";
     "-ex"; "add-symbol-file build/zephyr/zephyr.elf";
     "-ex"; "set confirm on";
     "-ex"; "break main";
     "-ex"; "continue";
     "build/mcuboot/zephyr/zephyr.elf"].

(** A runner with the external loader [x.stldr], which no host here has. *)
Definition runner_extload : Runner := runner true (Some "x.stldr") None false.

End Sample.

(** ** Further vocabulary: texts, argument lists, errors *)

(** Every character of [s] is a decimal digit. *)
Fixpoint all_digits (s : string) : bool :=
  match s with
  | EmptyString => true
  | String c s' => Py.isdigit c && all_digits s'
  end.

(** [s] does not start with a digit. *)
Definition no_digit_first (s : string) : bool :=
  match s with
  | EmptyString => true
  | String c _ => negb (Py.isdigit c)
  end.

(** [s.lower()] on ASCII. *)
Fixpoint lower_string (s : string) : string :=
  match s with
  | EmptyString => EmptyString
  | String c s' => String (Py.lower c) (lower_string s')
  end.

(** [c in s] for a character. *)
Fixpoint has_char (c : ascii) (s : string) : bool :=
  match s with
  | EmptyString => false
  | String d s' => Ascii.eqb d c || has_char c s'
  end.

(** No character of [s] is white space. *)
Fixpoint no_space (s : string) : bool :=
  match s with
  | EmptyString => true
  | String c s' => negb (Py.isspace c) && no_space s'
  end.

(** The value given to the option [o] in an argument list read from the
    left, an option that takes a value together with the argument after it. *)
Fixpoint option_value (o : string) (args : list string) : option string :=
  match args with
  | [] => None
  | a :: rest =>
      if takes_value a
      then match rest with
           | v :: rest' => if String.eqb a o then Some v else option_value o rest'
           | [] => None
           end
      else option_value o rest
  end.

(** The errors a run of [do_attach_debug_debugserver] can end with. *)
Inductive run_error (h : Host) (self : Runner) : exn -> Prop :=
| err_no_elf :
    elf_file self = None -> run_error h self AssertionError
| err_unsupported_os :
    run_error h self (RuntimeError "Unsupported OS")
| err_no_toolchain :
    run_error h self (MissingProgram "ST-LINK_gdbserver (from STM32CubeCLT)")
| err_no_mcuboot (msg : string) :
    _find_mcuboot_elf h self = Raise (RuntimeError msg) ->
    run_error h self (RuntimeError msg)
| err_no_loader (loader : string) :
    _external_loader self = Some loader -> loader <> EmptyString ->
    run_error h self (RuntimeError ("External loader " ++ loader ++ " does not exist"))
| err_no_program (program : string) :
    which h program = None -> run_error h self (MissingProgram program)
| err_no_gdb :
    gdb self = None ->
    run_error h self (RuntimeError "GDB is required for attach/debug").

(** The two flags that say how the server takes the target: as it runs,
    or after a reset. *)
Definition session_flag (a : string) : bool :=
  String.eqb a "--attach" || String.eqb a "--initialize-reset".

(** The platforms the locator knows. *)
Definition supported_os (h : Host) : bool :=
  existsb (String.eqb (platform_system h)) ["Linux"; "Windows"; "Darwin"].

(** The two places where the ELF of the bootloader is looked for. *)
Definition mcuboot_elf_path (h : Host) (self : Runner) : string :=
  joinpath h (joinpath h (joinpath h (Path h (build_dir self)) "mcuboot") "zephyr")
    "zephyr.elf".

Definition mcuboot_elf_alt_path (h : Host) (self : Runner) : string :=
  joinpath h
    (joinpath h (joinpath h (parent h (Path h (build_dir self))) "mcuboot") "zephyr")
    "zephyr.elf".

(** A host with the external loader [x.stldr] installed, and a runner that
    asks for it, for its initialisation and for the probe [0042]. *)
Definition disk_loader : Sample.Disk :=
  {| Sample.files :=
       ["build/zephyr/zephyr.elf"; "/opt/st/clt/prog/bin/ExternalLoader/x.stldr"];
     Sample.texts := [("build/zephyr/.config", Sample.config_f4)];
     Sample.folders := [];
     Sample.programs := Sample.on_path;
     Sample.system := "Linux";
     Sample.readelf_stdout := Some (Sample.header_dump "0x08040000") |}.

Definition runner_loader : Runner :=
  __init__ (Some "build/zephyr/zephyr.elf") "build" (Some "arm-none-eabi-gdb")
    true (Some 1) (Some "0042") 3333 (Some "x.stldr") true false None.

Definition loader_spawn : spawn :=
  run_server_and_client
    ["/opt/st/clt/gdbserver/bin/ST-LINK_gdbserver";
     "--stm32cubeprogrammer-path"; "/opt/st/clt/prog/bin";
     "--port-number"; "3333"; "--apid"; "1"; "--halt"; "--swd";
     "--initialize-reset"; "--serial-number"; "0042"; "--external-init";
     "--extload"; "/opt/st/clt/prog/bin/ExternalLoader/x.stldr"]
    ["arm-none-eabi-gdb"; "-ex"; "target remote :3333"; "build/zephyr/zephyr.elf";
     "-ex"; "load build/zephyr/zephyr.elf"].

(** A runner with no debugger configured. *)
Definition runner_no_gdb : Runner :=
  __init__ (Some "build/zephyr/zephyr.elf") "build" None
    true (Some 0) None STLINK_GDB_SERVER_DEFAULT_PORT None false false None.

(** A host that differs in what [readelf] prints and in the lines its files
    yield, and in nothing else. *)
Definition with_readings (h : Host) (readelf : string -> option string)
    (lines : string -> list string) : Host :=
  {| Path := Path h;
     joinpath := joinpath h;
     parent := parent h;
     name := name h;
     absolute := absolute h;
     as_posix := as_posix h;
     path_exists := path_exists h;
     is_dir := is_dir h;
     iterdir := iterdir h;
     platform_system := platform_system h;
     which := which h;
     readelf_h := readelf;
     read_lines := lines |}.

(** The build configuration of a runner. *)
Definition config_file_of (h : Host) (self : Runner) : string :=
  joinpath h (joinpath h (Path h (build_dir self)) "zephyr") ".config".

(** A line of the configuration that selects the SoC series. *)
Definition soc_line (line : string) : bool :=
  Py.startswith line "CONFIG_SOC_SERIES_STM32" && Py.contains "=y" line.

(** Two folders with the same two installations, listed in either order. *)
Definition scan_a : Sample.Disk :=
  Sample.disk_scan ["stm32cubeclt_1.18.0"; "junk"; "STM32CubeCLT_1.9.0"].

Definition scan_b : Sample.Disk :=
  Sample.disk_scan ["STM32CubeCLT_1.9.0"; "stm32cubeclt_1.18.0"; "junk"].

(** * Properties *)

(** ** The built-ins and the pattern on examples *)

Example split_colon :
  Py.split ":" "  Entry point address:               0x34180749" =
  ["  Entry point address"; "               0x34180749"].
Proof. reflexivity. Qed.

Example int16_entry :
  Py.int16 (Py.strip "               0x34180749") = Some 0x34180749
  /\ Py.int16 "0x3418_0749" = Some 0x34180749
  /\ Py.int16 "-1F" = Some (-31)
  /\ Py.int16 "0x" = None
  /\ Py.int16 "12__3" = None
  /\ Py.int16 "" = None.
Proof. repeat split. Qed.

Example soc_of_config_line :
  Py.slice_to 7
    (Py.strip (Py.replace "CONFIG_SOC_SERIES_STM32N6X" "CONFIG_SOC_SERIES_" ""))
  = "STM32N6".
Proof. reflexivity. Qed.

Example str_of_int :
  Py.str 61234 = "61234" /\ Py.str 0 = "0" /\ Py.str (-5) = "-5"
  /\ Py.str_opt None = "None".
Proof. repeat split. Qed.

(** The pattern matches at the start of the name, without case; its dots
    match any character, and the second group gives digits back when the
    rest does not match after the longest run. *)
Example pattern_matches :
  CubeCLT.CUBECLT_FLDR_RE_match "stm32cubeclt_2.0.99" = Some ("2", "0", "99")
  /\ CubeCLT.CUBECLT_FLDR_RE_match "STM32CubeCLT_1.19.0_rc1" = Some ("1", "19", "0")
  /\ CubeCLT.CUBECLT_FLDR_RE_match "stm32cubeclt_1-2345" = Some ("1", "23", "5")
  /\ CubeCLT.CUBECLT_FLDR_RE_match "stm32cubeclt_10.2.3" = None
  /\ CubeCLT.CUBECLT_FLDR_RE_match "my_stm32cubeclt_1.2.3" = None.
Proof. repeat split. Qed.

Example start_address_of_dump :
  _get_start_address (Sample.host_of Sample.disk_fsbl) Sample.default_runner
    = 0x34185000
  /\ _get_stm32_soc (Sample.host_of Sample.disk_fsbl) Sample.default_runner
      = "STM32N6"
  /\ _get_stm32_soc (Sample.host_of Sample.disk_f4) Sample.default_runner
      = "STM32F4".
Proof. repeat split. Qed.

(** ** The run and its segments *)

Lemma do_attach_debug_debugserver_planned (h : Host) (self : Runner) (command : string) :
  do_attach_debug_debugserver h self command = planned h self command.
Proof.
  unfold do_attach_debug_debugserver, planned.
  destruct (elf_file self) as [elf|]; [|reflexivity].
  destruct (CubeCLT._get_stm32cubeclt_paths h) as [[gp cp]|e]; [|reflexivity].
  cbn [bind fst snd].
  unfold branch, extload_missing, server_args, base_args, swd_args, serial_args,
    extload_args, extldr_path_of, connect_args.
  destruct (String.eqb command "attach");
    [| destruct (two_boot_layer_stage _ _ _);
       [destruct (_find_mcuboot_elf h self) as [m|e]; [|reflexivity] |] ];
    cbn [bind fst snd];
    destruct (_swd self);
    destruct (_stlink_serial self) as [[|c s]|];
    destruct (_external_loader self) as [[|c' s']|];
    cbn [bind fst snd app hd];
    try reflexivity;
    destruct (path_exists h _); cbn [negb bind]; try reflexivity;
    destruct (_do_external_init self); reflexivity.
Qed.

Lemma do_run_command (h : Host) (self : Runner) (intent : SessionIntent) :
  do_run h self (command_of intent) = planned h self (command_of intent).
Proof.
  rewrite <- do_attach_debug_debugserver_planned.
  destruct intent; reflexivity.
Qed.

(** ** Boot-mode classification *)

(** Masking with [0xFFFF0000] keeps the upper half-word of the low 32 bits. *)
Lemma land_upper_half (a : Z) :
  Z.land a 0xFFFF0000 = Z.shiftl (Z.land (Z.shiftr a 16) 0xFFFF) 16.
Proof.
  change 0xFFFF0000 with (Z.shiftl 0xFFFF 16).
  apply Z.bits_inj'; intros n Hn.
  rewrite Z.land_spec.
  destruct (Z.lt_ge_cases n 16) as [Hlt|Hge].
  - rewrite !Z.shiftl_spec_low by assumption.
    apply andb_false_r.
  - rewrite !Z.shiftl_spec by assumption.
    rewrite Z.land_spec, Z.shiftr_spec by lia.
    replace (n - 16 + 16) with n by lia.
    reflexivity.
Qed.

Lemma fsbl_window (a : Z) :
  0x34180000 <= a <= 0x3418FFFF -> _is_fsbl_mode a = true.
Proof.
  intros Ha. unfold _is_fsbl_mode.
  rewrite land_upper_half, Z.shiftr_div_pow2 by lia.
  replace (a / 2 ^ 16) with 0x3418.
  - reflexivity.
  - change (2 ^ 16) with 65536.
    apply Z.div_unique with (r := a - 0x34180000); lia.
Qed.

Lemma ram_window (a : Z) :
  _is_ram_mode a = true <-> 0x34000000 <= a < 0x34180000.
Proof. unfold _is_ram_mode. lia. Qed.

(** The regions do not overlap: nothing in the RAM window is FSBL. *)
Lemma ram_not_fsbl (a : Z) : _is_ram_mode a = true -> _is_fsbl_mode a = false.
Proof.
  rewrite ram_window. intros Ha. unfold _is_fsbl_mode.
  rewrite land_upper_half, Z.shiftr_div_pow2 by lia.
  apply Z.eqb_neq. intros E.
  assert (Hq : 0x3400 <= a / 2 ^ 16 <= 0x3417).
  { split; [apply Z.div_le_lower_bound | apply Z.lt_succ_r, Z.div_lt_upper_bound]; lia. }
  assert (Hland : Z.land (a / 2 ^ 16) 0xFFFF = a / 2 ^ 16).
  { change 0xFFFF with (Z.ones 16). rewrite Z.land_ones by lia.
    apply Z.mod_small. lia. }
  rewrite Hland, Z.shiftl_mul_pow2 in E by lia. lia.
Qed.

(** The runner takes its two boot stage branch exactly on FlashChained. *)
Lemma two_boot_stage_iff_chained (a : Z) (soc : string) :
  classify a soc = FlashChained <->
  two_boot_layer_stage (_is_fsbl_mode a) (_is_ram_mode a) soc = true.
Proof.
  unfold classify, two_boot_layer_stage, _is_fsbl_mode, _is_ram_mode.
  destruct (Z.land a 0xFFFF0000 =? 0x34180000),
    ((0x34000000 <=? a) && (a <? 0x34180000)), (String.eqb soc "STM32N6");
    cbn; split; congruence.
Qed.

(** C1: the classification is the ordered first-match policy: FSBL when the
    runner's FSBL test holds, else RAM when its RAM test holds, else
    FlashChained exactly when the runner takes its two boot stage branch
    (SoC family STM32N6), else Unknown.  Every address of
    [0x34180000, 0x3418FFFF] is FSBL for every family, and [0x08040000] is
    FlashChained for STM32N6 and Unknown for STM32F4. *)
Theorem C1_classify_first_match (entryPointAddress : Z) (socFamily : string) :
  classify entryPointAddress socFamily =
    (if _is_fsbl_mode entryPointAddress then FSBL
     else if _is_ram_mode entryPointAddress then RAM
     else if String.eqb socFamily "STM32N6" then FlashChained
     else Unknown)
  /\ (classify entryPointAddress socFamily = FlashChained <->
      two_boot_layer_stage (_is_fsbl_mode entryPointAddress)
        (_is_ram_mode entryPointAddress) socFamily = true)
  /\ (0x34180000 <= entryPointAddress <= 0x3418FFFF ->
      classify entryPointAddress socFamily = FSBL)
  /\ (0x34000000 <= entryPointAddress < 0x34180000 ->
      classify entryPointAddress socFamily = RAM)
  /\ classify 0x08040000 "STM32N6" = FlashChained
  /\ classify 0x08040000 "STM32F4" = Unknown.
Proof.
  assert (E : classify entryPointAddress socFamily =
    (if _is_fsbl_mode entryPointAddress then FSBL
     else if _is_ram_mode entryPointAddress then RAM
     else if String.eqb socFamily "STM32N6" then FlashChained
     else Unknown)) by reflexivity.
  split; [exact E|].
  split; [|split; [|split; [|split; reflexivity]]].
  - apply two_boot_stage_iff_chained.
  - intros Ha. rewrite E, (fsbl_window _ Ha). reflexivity.
  - intros Ha. rewrite E.
    assert (Hr : _is_ram_mode entryPointAddress = true) by (apply ram_window; exact Ha).
    rewrite (ram_not_fsbl _ Hr), Hr. reflexivity.
Qed.

Lemma C1_classify_first_match_witness :
  0x34180000 <= 0x34185000 <= 0x3418FFFF /\ classify 0x34185000 "STM32F4" = FSBL.
Proof.
  split; [lia|].
  apply (C1_classify_first_match 0x34185000 "STM32F4"). lia.
Defined.

(** ** What a successful run has gone through *)

Lemma planned_ok_inv (h : Host) (self : Runner) (command : string) (s : spawn) :
  planned h self command = Ok s ->
  exists elf gp cp flag gdb_args,
    elf_file self = Some elf
    /\ CubeCLT._get_stm32cubeclt_paths h = Ok (gp, cp)
    /\ branch h self command (as_posix h (Path h elf)) = Ok (flag, gdb_args)
    /\ extload_missing h self cp = None
    /\ ((command = "debugserver"
         /\ s = check_call (server_args h self gp cp flag))
        \/ (command <> "debugserver"
            /\ exists gdb_exe,
                 gdb self = Some gdb_exe
                 /\ s = run_server_and_client (server_args h self gp cp flag)
                          (gdb_exe :: gdb_args))).
Proof.
  unfold planned.
  destruct (elf_file self) as [elf|]; [|discriminate].
  destruct (CubeCLT._get_stm32cubeclt_paths h) as [[gp cp]|e]; [|discriminate].
  cbn [bind fst snd].
  destruct (branch h self command _) as [[flag gdb_args]|e] eqn:Hbranch; [|discriminate].
  cbn [bind fst snd].
  destruct (extload_missing h self cp) eqn:Hext; [discriminate|].
  destruct (require h (as_posix h gp)); [|discriminate].
  cbn [bind].
  destruct (String.eqb_spec command "debugserver") as [Hc|Hc].
  - intros [= <-]. exists elf, gp, cp, flag, gdb_args. auto 10.
  - destruct (gdb self) as [gdb_exe|]; [|discriminate].
    destruct (require h gdb_exe); [|discriminate].
    cbn [bind]. intros [= <-].
    exists elf, gp, cp, flag, gdb_args.
    repeat split; auto. right. split; [assumption|]. exists gdb_exe. auto.
Qed.

(** The three outcomes of the branch. *)
Lemma branch_cases (h : Host) (self : Runner) (command elf_path flag : string)
    (gdb_args : list string) :
  branch h self command elf_path = Ok (flag, gdb_args) ->
  (command = "attach" /\ flag = "--attach" /\ gdb_args = connect_args self elf_path)
  \/ (command <> "attach" /\ mode_of h self = FlashChained /\ flag = "--attach"
      /\ exists mcuboot_elf,
           _find_mcuboot_elf h self = Ok mcuboot_elf
           /\ gdb_args = two_phase_gdb_args self elf_path mcuboot_elf)
  \/ (command <> "attach" /\ mode_of h self <> FlashChained
      /\ flag = "--initialize-reset"
      /\ gdb_args =
           (connect_args self elf_path ++ ["-ex"; ("load " ++ elf_path)%string])%list).
Proof.
  unfold branch, mode_of.
  destruct (String.eqb_spec command "attach") as [Hc|Hc].
  - intros [= <- <-]. left. auto.
  - destruct (two_boot_layer_stage _ _ _) eqn:Hstage.
    + apply (two_boot_stage_iff_chained _ _) in Hstage.
      destruct (_find_mcuboot_elf h self) as [m|e]; [|discriminate].
      cbn [bind]. intros [= <- <-]. right. left.
      repeat split; auto. exists m. auto.
    + intros [= <- <-]. right. right.
      repeat split; auto.
      intros Hmode. apply (two_boot_stage_iff_chained _ _) in Hmode. congruence.
Qed.

(** ** Flags and debugger commands of the plans *)

Lemma flags_of_value (o v : string) (rest : list string) :
  takes_value o = true -> flags_of (o :: v :: rest) = flags_of rest.
Proof. intros Ho. cbn [flags_of]. rewrite Ho. reflexivity. Qed.

Lemma flags_of_flag (o : string) (rest : list string) :
  takes_value o = false -> flags_of (o :: rest) = o :: flags_of rest.
Proof. intros Ho. cbn [flags_of]. rewrite Ho. reflexivity. Qed.

(** The flags of the server: halt, the interface when it is SWD, the flag of
    the branch, and the initialisation of the loader.  No value of an option
    is taken for a flag, whatever it is. *)
Lemma server_flags_server_args (h : Host) (self : Runner) (gp cp flag : string) :
  takes_value flag = false ->
  server_flags (server_args h self gp cp flag) =
  ("--halt" :: swd_args self ++ flag :: external_init_flags self)%list.
Proof.
  intros Hflag.
  unfold server_flags, server_args, base_args, swd_args, serial_args, extload_args,
    external_init_flags.
  cbn [tl app].
  rewrite !flags_of_value by reflexivity.
  rewrite flags_of_flag by reflexivity. f_equal.
  destruct (_swd self); cbn [app];
    rewrite ?(flags_of_flag "--swd") by reflexivity;
    rewrite (flags_of_flag flag) by assumption;
    repeat f_equal;
    destruct (_stlink_serial self) as [[|c s]|]; cbn [app];
    rewrite ?flags_of_value by reflexivity;
    destruct (_external_loader self) as [[|c' s']|]; try reflexivity;
    destruct (_do_external_init self); cbn [app];
    rewrite ?(flags_of_flag "--external-init") by reflexivity;
    rewrite flags_of_value by reflexivity; reflexivity.
Qed.

Lemma ex_commands_cons (c : string) (rest : list string) :
  ex_commands ("-ex" :: c :: rest) = c :: ex_commands rest.
Proof. reflexivity. Qed.

(** A last argument that no command follows adds none, whatever it is. *)
Lemma ex_commands_last (file : string) : ex_commands [file] = [].
Proof. cbn [ex_commands]. destruct (String.eqb file "-ex"); reflexivity. Qed.

Lemma ex_commands_connect (self : Runner) (elf_path : string) :
  ex_commands (connect_args self elf_path) =
  [("target remote :" ++ Py.str (_gdb_port self))%string].
Proof.
  unfold connect_args. rewrite ex_commands_cons, ex_commands_last. reflexivity.
Qed.

Lemma ex_commands_two_phase (self : Runner) (elf_path mcuboot_elf : string) :
  ex_commands (two_phase_gdb_args self elf_path mcuboot_elf) =
  [ ("target remote :" ++ Py.str (_gdb_port self))%string;
    "load"; "hbreak boot_go"; "continue"; "set confirm off";
    ("add-symbol-file " ++ elf_path)%string;
    "set confirm on"; "break main"; "continue" ].
Proof.
  unfold two_phase_gdb_args.
  rewrite !ex_commands_cons, ex_commands_last. reflexivity.
Qed.

(** An attach: the flag of the server and the arguments of the debugger. *)
Lemma attach_plan (h : Host) (self : Runner) (s : spawn) :
  planned h self "attach" = Ok s ->
  exists elf gp cp gdb_exe,
    elf_file self = Some elf
    /\ CubeCLT._get_stm32cubeclt_paths h = Ok (gp, cp)
    /\ gdb self = Some gdb_exe
    /\ s = run_server_and_client (server_args h self gp cp "--attach")
             (gdb_exe :: connect_args self (as_posix h (Path h elf))).
Proof.
  intros Hrun.
  apply planned_ok_inv in Hrun.
  destruct Hrun as (elf & gp & cp & flag & gdb_args & Helf & Hpaths & Hbranch & _ & Hs).
  apply branch_cases in Hbranch.
  destruct Hbranch as [(_ & -> & ->) | [(Hc & _) | (Hc & _)]]; try congruence.
  destruct Hs as [(Hc & _) | (_ & gdb_exe & Hgdb & ->)]; [discriminate|].
  exists elf, gp, cp, gdb_exe. auto.
Qed.

(** ** Server only *)

(** C3: with the intent ServerOnly (command [debugserver]) a run that gets
    as far as starting something starts the server alone, with its argument
    list: no debugger client, no debugger command, whatever the mode. *)
Theorem C3_server_only_no_client (h : Host) (self : Runner) (s : spawn) :
  do_run h self (command_of ServerOnly) = Ok s ->
  client_of s = None
  /\ debugger_commands s = []
  /\ exists gp cp flag,
       CubeCLT._get_stm32cubeclt_paths h = Ok (gp, cp)
       /\ s = check_call (server_args h self gp cp flag).
Proof.
  rewrite do_run_command. intros Hrun.
  apply planned_ok_inv in Hrun.
  destruct Hrun as (elf & gp & cp & flag & gdb_args & _ & Hpaths & _ & _ & Hs).
  destruct Hs as [(_ & ->) | (Hc & _)]; [|exfalso; apply Hc; reflexivity].
  repeat split. exists gp, cp, flag. auto.
Qed.

Lemma C3_server_only_no_client_witness :
  client_of (check_call (Sample.server_line ["--swd"; "--attach"])) = None.
Proof.
  apply (C3_server_only_no_client (Sample.host_of Sample.disk_chained)
           Sample.default_runner).
  reflexivity.
Defined.

(** ** Attach *)

(** C5: with the intent Attach, whatever the mode, the flags of the server
    contain [--attach] and not [--initialize-reset], and the debugger is
    given one command, the connection to the server: no load. *)
Theorem C5_attach_plan (h : Host) (self : Runner) (s : spawn) :
  do_run h self (command_of Attach) = Ok s ->
  In "--attach" (server_of s)
  /\ In "--attach" (server_flags (server_of s))
  /\ ~ In "--initialize-reset" (server_flags (server_of s))
  /\ debugger_commands s = [("target remote :" ++ Py.str (_gdb_port self))%string].
Proof.
  rewrite do_run_command. intros Hrun.
  apply attach_plan in Hrun.
  destruct Hrun as (elf & gp & cp & gdb_exe & _ & _ & _ & ->).
  cbn [server_of debugger_commands client_of tl].
  rewrite server_flags_server_args by reflexivity.
  rewrite ex_commands_connect.
  repeat split.
  - unfold server_args. rewrite !in_app_iff. cbn. auto.
  - right. rewrite in_app_iff. cbn. auto.
  - unfold swd_args, external_init_flags. intros [H|H]; [discriminate|].
    rewrite in_app_iff in H. destruct H as [H|[H|H]]; [| discriminate |].
    + destruct (_swd self); cbn in H; intuition discriminate.
    + destruct (_external_loader self) as [[|c l]|]; cbn in H; try contradiction.
      destruct (_do_external_init self); cbn in H; intuition discriminate.
Qed.

Lemma C5_attach_plan_witness :
  In "--attach" (server_flags (server_of Sample.attach_spawn))
  /\ debugger_commands Sample.attach_spawn = ["target remote :61234"].
Proof.
  assert (Hrun : do_run (Sample.host_of Sample.disk_chained) Sample.default_runner
                   (command_of Attach) = Ok Sample.attach_spawn) by reflexivity.
  split; apply (C5_attach_plan _ _ _ Hrun).
Defined.

(** C4, as the runner does it: for the entry point [0x34185000] the mode is
    FSBL, and an attach gives the server the flag [--attach] and the debugger
    the connection to the server as its only command; nothing is loaded. *)
Theorem C4_fsbl_attach_scenario (h : Host) (self : Runner) (s : spawn) :
  _get_start_address h self = 0x34185000 ->
  do_run h self (command_of Attach) = Ok s ->
  mode_of h self = FSBL
  /\ In "--attach" (server_flags (server_of s))
  /\ debugger_commands s = [("target remote :" ++ Py.str (_gdb_port self))%string].
Proof.
  intros Hentry Hrun. split.
  - unfold mode_of. rewrite Hentry. reflexivity.
  - rewrite do_run_command in Hrun.
    apply attach_plan in Hrun.
    destruct Hrun as (elf & gp & cp & gdb_exe & _ & _ & _ & ->).
    cbn [server_of debugger_commands client_of tl].
    rewrite server_flags_server_args by reflexivity.
    rewrite ex_commands_connect. split; [|reflexivity].
    right. rewrite in_app_iff. cbn. auto.
Qed.

Lemma C4_fsbl_attach_scenario_witness :
  mode_of (Sample.host_of Sample.disk_fsbl) Sample.default_runner = FSBL
  /\ In "--attach" (server_flags (server_of Sample.attach_spawn))
  /\ debugger_commands Sample.attach_spawn = ["target remote :61234"].
Proof.
  apply (C4_fsbl_attach_scenario (Sample.host_of Sample.disk_fsbl)
           Sample.default_runner Sample.attach_spawn); reflexivity.
Defined.

(** C4 as stated fails: on a host whose ELF has the entry point
    [0x34185000] an attach gives the debugger one command, the connection,
    and no command that loads. *)
Lemma C4_attach_has_no_load :
  _get_start_address (Sample.host_of Sample.disk_fsbl) Sample.default_runner
    = 0x34185000
  /\ do_run (Sample.host_of Sample.disk_fsbl) Sample.default_runner
       (command_of Attach) = Ok Sample.attach_spawn
  /\ debugger_commands Sample.attach_spawn = ["target remote :61234"]
  /\ existsb (fun c => Py.startswith c "load") (debugger_commands Sample.attach_spawn)
     = false.
Proof. repeat split. Qed.

(** ** Flags that are always there *)

(** C9, as the runner does it: a run that starts something gives the server
    exactly the executable, the programmer folder, the port number, the
    access point and the halt flag, then [--swd] when SWD is enabled, then
    one of [--attach] and [--initialize-reset], then the serial number and
    the external loader when they are configured, and nothing else.  So the
    port, the access point and the halt flag are always there, and the
    interface flag [--swd] is among the flags exactly when SWD is enabled;
    with SWD disabled the flags are among [--halt], [--attach],
    [--initialize-reset] and [--external-init]: no interface flag at all,
    JTAG has none of its own. *)
Theorem C9_server_always_present (h : Host) (self : Runner) (command : string)
    (s : spawn) :
  do_attach_debug_debugserver h self command = Ok s ->
  exists gp cp flag,
    CubeCLT._get_stm32cubeclt_paths h = Ok (gp, cp)
    /\ (flag = "--attach" \/ flag = "--initialize-reset")
    /\ server_of s =
         ([ as_posix h gp;
            "--stm32cubeprogrammer-path"; absolute h cp;
            "--port-number"; Py.str (_gdb_port self);
            "--apid"; Py.str_opt (_ap_id self);
            "--halt" ]
          ++ (if _swd self then ["--swd"] else [])
          ++ [flag]
          ++ match _stlink_serial self with
             | Some (String c serial) => ["--serial-number"; String c serial]
             | _ => []
             end
          ++ match _external_loader self with
             | Some (String c loader) =>
                 (if _do_external_init self then ["--external-init"] else [])
                 ++ ["--extload";
                     joinpath h (joinpath h cp "ExternalLoader") (String c loader)]
             | _ => []
             end)%list
    /\ server_flags (server_of s) =
         ("--halt"
          :: (if _swd self then ["--swd"] else [])
          ++ flag
          :: match _external_loader self with
             | Some (String _ _) =>
                 if _do_external_init self then ["--external-init"] else []
             | _ => []
             end)%list
    /\ In "--halt" (server_flags (server_of s))
    /\ (In "--swd" (server_flags (server_of s)) <-> _swd self = true)
    /\ (_swd self = false ->
        forall a, In a (server_flags (server_of s)) ->
                  a = "--halt" \/ a = "--attach" \/ a = "--initialize-reset"
                  \/ a = "--external-init").
Proof.
  rewrite do_attach_debug_debugserver_planned. intros Hrun.
  apply planned_ok_inv in Hrun.
  destruct Hrun as (elf & gp & cp & flag & gdb_args & _ & Hpaths & Hbranch & _ & Hs).
  assert (Hflag : flag = "--attach" \/ flag = "--initialize-reset").
  { apply branch_cases in Hbranch.
    destruct Hbranch as [(_ & -> & _) | [(_ & _ & -> & _) | (_ & _ & -> & _)]]; auto. }
  assert (Hserver : server_of s = server_args h self gp cp flag).
  { destruct Hs as [(_ & ->) | (_ & gdb_exe & _ & ->)]; reflexivity. }
  assert (Hflags : server_flags (server_of s) =
                   ("--halt" :: swd_args self ++ flag :: external_init_flags self)%list).
  { rewrite Hserver. apply server_flags_server_args.
    destruct Hflag; subst; reflexivity. }
  exists gp, cp, flag.
  split; [assumption|]. split; [assumption|].
  split; [rewrite Hserver; reflexivity|].
  split; [exact Hflags|].
  rewrite Hflags. unfold swd_args, external_init_flags.
  split; [left; reflexivity|]. split.
  - destruct (_swd self); cbn [app]; split; auto.
    + intros _. right. left. reflexivity.
    + intros [H|[H|H]]; [discriminate| destruct Hflag; subst; discriminate |].
      destruct (_external_loader self) as [[|c l]|]; cbn in H; try contradiction.
      destruct (_do_external_init self); cbn in H; intuition discriminate.
    + discriminate.
  - intros Hswd a. rewrite Hswd. cbn [app].
    intros [<-|[<-|H]]; [auto | destruct Hflag; subst; auto |].
    destruct (_external_loader self) as [[|c l]|]; cbn in H; try contradiction.
    destruct (_do_external_init self); cbn in H; [|contradiction].
    destruct H as [<-|[]]. auto.
Qed.

Lemma C9_server_always_present_witness :
  In "--halt" (server_flags (server_of Sample.two_phase_spawn))
  /\ (In "--swd" (server_flags (server_of Sample.two_phase_spawn))
      <-> _swd Sample.default_runner = true).
Proof.
  destruct (C9_server_always_present (Sample.host_of Sample.disk_chained)
              Sample.default_runner "debug" Sample.two_phase_spawn eq_refl)
    as (gp & cp & flag & _ & _ & _ & _ & Hhalt & Hswd & _).
  split; assumption.
Defined.

(** C9 as stated fails: with SWD disabled the server is given no interface
    flag at all. *)
Lemma C9_no_interface_flag_without_swd :
  do_run (Sample.host_of Sample.disk_f4) (Sample.runner false None None false)
    (command_of DebugNew) = Ok Sample.reset_spawn_no_swd
  /\ server_of Sample.reset_spawn_no_swd =
       [ "/opt/st/clt/gdbserver/bin/ST-LINK_gdbserver";
         "--stm32cubeprogrammer-path"; "/opt/st/clt/prog/bin";
         "--port-number"; "61234"; "--apid"; "0"; "--halt";
         "--initialize-reset" ]
  /\ server_flags (server_of Sample.reset_spawn_no_swd)
     = ["--halt"; "--initialize-reset"].
Proof. repeat split. Qed.

(** ** The two boot stage branch *)

(** C2, evaluated: in the mode FlashChained a debug session gives the
    debugger nine commands; after the breakpoint at the hand-off and the
    continue, the symbols of the application are added with the path of its
    ELF alone, then come the breakpoint at [main] and the continue.  The
    offset of the image is no part of any command. *)
Theorem C2_two_phase_commands (h : Host) (self : Runner) (s : spawn) :
  mode_of h self = FlashChained ->
  do_run h self (command_of DebugNew) = Ok s ->
  exists elf,
    elf_file self = Some elf
    /\ debugger_commands s =
       [ ("target remote :" ++ Py.str (_gdb_port self))%string;
         "load"; "hbreak boot_go"; "continue"; "set confirm off";
         ("add-symbol-file " ++ as_posix h (Path h elf))%string;
         "set confirm on"; "break main"; "continue" ].
Proof.
  intros Hmode. rewrite do_run_command. intros Hrun.
  apply planned_ok_inv in Hrun.
  destruct Hrun as (elf & gp & cp & flag & gdb_args & Helf & _ & Hbranch & _ & Hs).
  exists elf. split; [assumption|].
  apply branch_cases in Hbranch.
  destruct Hbranch as [(Hc & _) | [(_ & _ & _ & m & _ & ->) | (_ & Hn & _)]];
    [discriminate | | contradiction].
  destruct Hs as [(Hc & _) | (_ & gdb_exe & _ & ->)]; [discriminate|].
  cbn [debugger_commands client_of tl].
  apply ex_commands_two_phase.
Qed.

Lemma C2_two_phase_commands_witness :
  debugger_commands Sample.two_phase_spawn =
  [ "target remote :61234";
    "load"; "hbreak boot_go"; "continue"; "set confirm off";
    "add-symbol-file build/zephyr/zephyr.elf";
    "set confirm on"; "break main"; "continue" ].
Proof.
  destruct (C2_two_phase_commands (Sample.host_of Sample.disk_chained)
              Sample.default_runner Sample.two_phase_spawn)
    as (elf & Helf & Hcommands); [reflexivity | reflexivity |].
  injection Helf as <-. exact Hcommands.
Defined.

(** The runner stores the offset, [0x08040000] when none is given, and the
    script of [_create_mcuboot_debug_script], which nothing calls, is the
    only place that passes it to [add-symbol-file]. *)
Lemma mcuboot_offset_only_in_script :
  _mcuboot_offset Sample.default_runner = "0x08040000"
  /\ Py.contains "add-symbol-file build/zephyr/zephyr.elf 0x08040000"
       (script_content Sample.default_runner "build/zephyr/zephyr.elf") = true
  /\ existsb (Py.contains "0x08040000") (debugger_commands Sample.two_phase_spawn)
     = false.
Proof. repeat split. Qed.

(** ** The external loader *)

Lemma branch_raise (h : Host) (self : Runner) (command elf_path : string) (e : exn) :
  branch h self command elf_path = Raise e ->
  command <> "attach" /\ mode_of h self = FlashChained
  /\ _find_mcuboot_elf h self = Raise e.
Proof.
  unfold branch, mode_of.
  destruct (String.eqb_spec command "attach") as [Hc|Hc]; [discriminate|].
  destruct (two_boot_layer_stage _ _ _) eqn:Hstage; [|discriminate].
  apply two_boot_stage_iff_chained in Hstage.
  destruct (_find_mcuboot_elf h self) as [m|e']; [discriminate|].
  cbn [bind]. intros [= ->]. auto.
Qed.

(** C7, as the runner does it: when an external loader is configured and
    its file under the [ExternalLoader] folder of the programmer is absent,
    the run fails whatever the mode and the intent, and nothing is started.
    The error is the one on the external loader when the steps before the
    check have passed: an ELF is configured and the two boot stage branch,
    when it is taken, has found the ELF of the bootloader. *)
Theorem C7_missing_external_loader (h : Host) (self : Runner)
    (command gp cp loader : string) :
  CubeCLT._get_stm32cubeclt_paths h = Ok (gp, cp) ->
  _external_loader self = Some loader ->
  loader <> EmptyString ->
  path_exists h (extldr_path_of h cp loader) = false ->
  exists e,
    do_attach_debug_debugserver h self command = Raise e
    /\ (elf_file self <> None ->
        (command = "attach" \/ mode_of h self <> FlashChained
         \/ exists mcuboot_elf, _find_mcuboot_elf h self = Ok mcuboot_elf) ->
        e = RuntimeError ("External loader " ++ loader ++ " does not exist")).
Proof.
  intros Hpaths Hloader Hname Habsent.
  assert (Hmissing : extload_missing h self cp = Some loader).
  { unfold extload_missing. rewrite Hloader.
    destruct loader as [|c l]; [contradiction|]. rewrite Habsent. reflexivity. }
  rewrite do_attach_debug_debugserver_planned. unfold planned.
  destruct (elf_file self) as [elf|].
  - rewrite Hpaths. cbn [bind fst snd].
    destruct (branch h self command _) as [chosen|e] eqn:Hbranch; cbn [bind].
    + rewrite Hmissing. eexists. split; [reflexivity|]. reflexivity.
    + exists e. split; [reflexivity|]. intros _ Hsteps.
      apply branch_raise in Hbranch. destruct Hbranch as (Hc & Hmode & Hfind).
      destruct Hsteps as [Hc'|[Hmode'|[m Hm]]]; congruence.
  - exists AssertionError. split; [reflexivity|]. intros Helf. contradiction.
Qed.

Lemma C7_missing_external_loader_witness :
  exists e,
    do_attach_debug_debugserver (Sample.host_of Sample.disk_fsbl)
      Sample.runner_extload "debugserver" = Raise e
    /\ (elf_file Sample.runner_extload <> None ->
        ("debugserver" = "attach"
         \/ mode_of (Sample.host_of Sample.disk_fsbl) Sample.runner_extload
            <> FlashChained
         \/ exists mcuboot_elf,
              _find_mcuboot_elf (Sample.host_of Sample.disk_fsbl)
                Sample.runner_extload = Ok mcuboot_elf) ->
        e = RuntimeError "External loader x.stldr does not exist").
Proof.
  apply (C7_missing_external_loader (Sample.host_of Sample.disk_fsbl)
           Sample.runner_extload "debugserver"
           "/opt/st/clt/gdbserver/bin/ST-LINK_gdbserver" "/opt/st/clt/prog/bin"
           "x.stldr").
  - reflexivity.
  - reflexivity.
  - discriminate.
  - reflexivity.
Defined.

(** C7 as stated fails: the loader is configured and absent, the toolchain
    is found, and the error of a debug session in the mode FlashChained is
    the one on the ELF of the bootloader, which is looked up first. *)
Lemma C7_bootloader_error_first :
  CubeCLT._get_stm32cubeclt_paths (Sample.host_of Sample.disk_chained_no_mcuboot)
    = Ok ("/opt/st/clt/gdbserver/bin/ST-LINK_gdbserver", "/opt/st/clt/prog/bin")
  /\ _external_loader Sample.runner_extload = Some "x.stldr"
  /\ path_exists (Sample.host_of Sample.disk_chained_no_mcuboot)
       "/opt/st/clt/prog/bin/ExternalLoader/x.stldr" = false
  /\ mode_of (Sample.host_of Sample.disk_chained_no_mcuboot) Sample.runner_extload
     = FlashChained
  /\ do_run (Sample.host_of Sample.disk_chained_no_mcuboot) Sample.runner_extload
       (command_of DebugNew)
     = Raise (RuntimeError
         "MCUboot ELF not found. For --flash mode with sysbuild, MCUboot must be built (use --sysbuild flag)").
Proof. repeat split. Qed.

(** ** An entry point that cannot be read *)

Lemma entry_point_of_lines_none (lines : list string) :
  (forall line, In line lines -> Py.contains "Entry point address" line = false) ->
  entry_point_of_lines lines = Some 0.
Proof.
  induction lines as [|line lines IH]; intros Hno; [reflexivity|].
  cbn [entry_point_of_lines].
  rewrite (Hno line) by (left; reflexivity).
  apply IH. intros l Hl. apply Hno. right. exact Hl.
Qed.

Lemma unreadable_start_address (h : Host) (self : Runner) :
  EntryPointUnreadable h self -> _get_start_address h self = 0.
Proof.
  unfold _get_start_address.
  intros [Helf | elf Helf Hrun | elf stdout Helf Hrun Hno | elf stdout Helf Hrun Hbad];
    rewrite Helf; try reflexivity; rewrite Hrun; try reflexivity.
  - rewrite (entry_point_of_lines_none _ Hno). reflexivity.
  - rewrite Hbad. reflexivity.
Qed.

(** C8, as the runner does it: an unreadable entry point gives the address
    0, and the address 0 is classified without error, never as FSBL and
    never as RAM: as Unknown for every SoC family but STM32N6, and as
    FlashChained for STM32N6, where the runner takes its two boot stage
    branch. *)
Theorem C8_unreadable_entry_point (h : Host) (self : Runner) (socFamily : string) :
  EntryPointUnreadable h self ->
  _get_start_address h self = 0
  /\ _is_fsbl_mode 0 = false
  /\ _is_ram_mode 0 = false
  /\ classify 0 socFamily =
       (if String.eqb socFamily "STM32N6" then FlashChained else Unknown)
  /\ (socFamily <> "STM32N6" -> classify 0 socFamily = Unknown)
  /\ two_boot_layer_stage (_is_fsbl_mode 0) (_is_ram_mode 0) socFamily
     = String.eqb socFamily "STM32N6".
Proof.
  intros Hunreadable.
  split; [apply unreadable_start_address; assumption|].
  repeat split.
  intros Hsoc. apply String.eqb_neq in Hsoc.
  unfold classify. cbn. rewrite Hsoc. reflexivity.
Qed.

Lemma C8_unreadable_entry_point_witness :
  _get_start_address (Sample.host_of Sample.disk_unreadable) Sample.default_runner = 0
  /\ classify 0 "STM32F4" = Unknown.
Proof.
  assert (Hunreadable : EntryPointUnreadable (Sample.host_of Sample.disk_unreadable)
                          Sample.default_runner).
  { apply readelf_fails with (elf := "build/zephyr/zephyr.elf"); reflexivity. }
  split.
  - apply (C8_unreadable_entry_point _ _ "STM32F4" Hunreadable).
  - apply (C8_unreadable_entry_point _ _ "STM32F4" Hunreadable). discriminate.
Defined.

(** C8 as stated fails: with the SoC family STM32N6 the address 0 is
    FlashChained, neither RAM nor Unknown, and a debug session with an
    unreadable entry point then needs the ELF of the bootloader. *)
Lemma C8_zero_is_chained_on_n6 :
  _get_start_address (Sample.host_of Sample.disk_unreadable) Sample.default_runner = 0
  /\ _get_stm32_soc (Sample.host_of Sample.disk_unreadable) Sample.default_runner
     = "STM32N6"
  /\ classify 0 "STM32N6" = FlashChained
  /\ classify 0 "STM32N6" <> RAM
  /\ classify 0 "STM32N6" <> Unknown
  /\ two_boot_layer_stage (_is_fsbl_mode 0) (_is_ram_mode 0) "STM32N6" = true
  /\ do_run (Sample.host_of Sample.disk_unreadable) Sample.default_runner
       (command_of DebugNew)
     = Raise (RuntimeError
         "MCUboot ELF not found. For --flash mode with sysbuild, MCUboot must be built (use --sysbuild flag)").
Proof. repeat split; discriminate. Qed.

(** ** Options that are stored and not read *)

(** C10: two runners created alike but for [--two-boot-stage] and
    [--mcuboot-offset] run alike: the same error, or the same server and
    debugger command lines. *)
Theorem C10_boot_options_unused (h : Host)
    (cfg_elf_file : option string) (cfg_build_dir : string) (cfg_gdb : option string)
    (swd : bool) (ap_id : option Z) (stlink_serial : option string) (gdb_port : Z)
    (external_loader : option string) (external_init : bool)
    (two_boot_stage two_boot_stage' : bool)
    (mcuboot_offset mcuboot_offset' : option string) (command : string) :
  do_run h
    (__init__ cfg_elf_file cfg_build_dir cfg_gdb swd ap_id stlink_serial gdb_port
       external_loader external_init two_boot_stage mcuboot_offset) command
  = do_run h
    (__init__ cfg_elf_file cfg_build_dir cfg_gdb swd ap_id stlink_serial gdb_port
       external_loader external_init two_boot_stage' mcuboot_offset') command.
Proof.
  unfold do_run.
  destruct (existsb (String.eqb command) ["attach"; "debug"; "debugserver"]);
    [|reflexivity].
  rewrite !do_attach_debug_debugserver_planned.
  unfold planned, branch, server_args, extload_missing, __init__.
  reflexivity.
Qed.

(** ** The highest installed version *)

Import CubeCLT.

Lemma sorted_reverse_nil {A} (l : list (Z * A)) : sorted_reverse l = [] -> l = [].
Proof.
  destruct l as [|x l]; [reflexivity|]. cbn [sorted_reverse].
  destruct (sorted_reverse l) as [|y m]; cbn [insert_desc]; [discriminate|].
  destruct (fst x <? fst y); discriminate.
Qed.

(** The first entry of the sorted list is an entry of greatest key. *)
Lemma sorted_reverse_head {A} (l : list (Z * A)) (x : Z * A) (l' : list (Z * A)) :
  sorted_reverse l = x :: l' ->
  In x l /\ forall y, In y l -> fst y <= fst x.
Proof.
  revert x l'. induction l as [|a l IH]; intros x l'; [discriminate|].
  cbn [sorted_reverse].
  destruct (sorted_reverse l) as [|y m] eqn:Hsorted.
  - apply sorted_reverse_nil in Hsorted. subst l.
    cbn [insert_desc]. intros [= <- _]. split; [left; reflexivity|].
    intros y [<-|[]]. lia.
  - destruct (IH y m eq_refl) as [Hy Hmax].
    cbn [insert_desc]. destruct (Z.ltb_spec (fst a) (fst y)) as [Hlt|Hge].
    + intros [= <- _]. split; [right; assumption|].
      intros z [<-|Hz]; [lia | apply Hmax; assumption].
    + intros [= <- _]. split; [left; reflexivity|].
      intros z [<-|Hz]; [lia | specialize (Hmax z Hz); lia].
Qed.

Lemma in_installations (h : Host) (entries : list string) (v : Z) (f : string) :
  In (v, f) (installations h entries) <->
  In f entries
  /\ exists m1 m2 m3,
       CUBECLT_FLDR_RE_match (name h f) = Some (m1, m2, m3)
       /\ v = ver_num (Py.int m1) (Py.int m2) (Py.int m3).
Proof.
  unfold installations. rewrite in_flat_map. split.
  - intros (g & Hg & Hin).
    destruct (CUBECLT_FLDR_RE_match (name h g)) as [[[m1 m2] m3]|] eqn:Hmatch;
      [|contradiction].
    destruct Hin as [[= <- <-]|[]].
    split; [assumption|]. exists m1, m2, m3. auto.
  - intros (Hf & m1 & m2 & m3 & Hmatch & ->).
    exists f. split; [assumption|]. rewrite Hmatch. left. reflexivity.
Qed.

(** The installation found is one of greatest version number. *)
Lemma find_highest_is_greatest (h : Host) (tools_folder f : string) :
  find_highest_clt_version h tools_folder = Some f ->
  exists v,
    In (v, f) (installations h (iterdir h tools_folder))
    /\ forall v' f', In (v', f') (installations h (iterdir h tools_folder)) -> v' <= v.
Proof.
  unfold find_highest_clt_version.
  destruct (is_dir h tools_folder); cbn [negb]; [|discriminate].
  destruct (sorted_reverse _) as [|[v g] l'] eqn:Hsorted; [discriminate|].
  intros [= <-]. apply sorted_reverse_head in Hsorted.
  destruct Hsorted as [Hin Hmax].
  exists v. split; [assumption|].
  intros v' f' Hin'. apply (Hmax (v', f')). assumption.
Qed.

(** Something is found as soon as one entry of the folder matches. *)
Lemma find_highest_some (h : Host) (tools_folder : string) :
  is_dir h tools_folder = true ->
  installations h (iterdir h tools_folder) <> [] ->
  exists f, find_highest_clt_version h tools_folder = Some f.
Proof.
  intros Hdir Hsome. unfold find_highest_clt_version. rewrite Hdir. cbn [negb].
  destruct (sorted_reverse _) as [|x l'] eqn:Hsorted.
  - apply sorted_reverse_nil in Hsorted. contradiction.
  - exists (snd x). reflexivity.
Qed.

(** With minor and patch numbers below 1000 the version number orders the
    versions as the triples do. *)
Lemma linearize_monotonic (v w : version) :
  below_1000 v -> below_1000 w ->
  (version_lt v w <-> linearize v < linearize w).
Proof.
  destruct v as [[a b] c], w as [[a' b'] c'].
  unfold below_1000, version_lt, linearize, ver_num. lia.
Qed.

(** C6, as the runner does it: the installation selected has the greatest
    value of [major * 1000000 + minor * 1000 + revis] among the entries of
    the folder that match, and one is selected as soon as one matches.  This
    value orders versions as the triples do when minor and patch numbers are
    below 1000.  In a folder holding the versions 2.1.0, 1.9.9 and 2.0.99,
    in any order, 2.1.0 is selected. *)
Theorem C6_highest_version_selected (h : Host) (tools_folder : string) :
  (forall f,
     find_highest_clt_version h tools_folder = Some f ->
     exists v,
       In (v, f) (installations h (iterdir h tools_folder))
       /\ forall v' f',
            In (v', f') (installations h (iterdir h tools_folder)) -> v' <= v)
  /\ (is_dir h tools_folder = true ->
      installations h (iterdir h tools_folder) <> [] ->
      exists f, find_highest_clt_version h tools_folder = Some f)
  /\ (forall v w : version,
        below_1000 v -> below_1000 w ->
        (version_lt v w <-> linearize v < linearize w))
  /\ (is_dir h tools_folder = true ->
      Permutation (map (name h) (iterdir h tools_folder)) example_scan ->
      exists f,
        find_highest_clt_version h tools_folder = Some f
        /\ name h f = "stm32cubeclt_2.1.0").
Proof.
  split; [intros f; apply find_highest_is_greatest|].
  split; [apply find_highest_some|].
  split; [apply linearize_monotonic|].
  intros Hdir Hperm.
  assert (Hbest : exists g, In (2001000, g) (installations h (iterdir h tools_folder))).
  { assert (Hin : In "stm32cubeclt_2.1.0" (map (name h) (iterdir h tools_folder))).
    { apply (Permutation_in _ (Permutation_sym Hperm)). left. reflexivity. }
    apply in_map_iff in Hin. destruct Hin as (g & Hname & Hg).
    exists g. apply in_installations. split; [assumption|].
    rewrite Hname. exists "2", "1", "0". split; reflexivity. }
  destruct Hbest as (g & Hg).
  destruct (find_highest_some h tools_folder Hdir) as (f & Hfound).
  { intros Hnil. rewrite Hnil in Hg. contradiction. }
  exists f. split; [assumption|].
  apply find_highest_is_greatest in Hfound. destruct Hfound as (v & Hin & Hmax).
  specialize (Hmax _ _ Hg).
  apply in_installations in Hin.
  destruct Hin as (Hf & m1 & m2 & m3 & Hmatch & ->).
  assert (Hname : In (name h f) example_scan).
  { apply (Permutation_in _ Hperm). apply in_map. assumption. }
  destruct Hname as [<-|[Hname|[Hname|[]]]]; [reflexivity | |];
    rewrite <- Hname in Hmatch; injection Hmatch as <- <- <-;
    vm_compute in Hmax; contradiction.
Qed.

Lemma C6_highest_version_selected_witness :
  exists f,
    find_highest_clt_version (Sample.host_of (Sample.disk_scan example_scan)) "/opt/st"
      = Some f
    /\ name (Sample.host_of (Sample.disk_scan example_scan)) f = "stm32cubeclt_2.1.0".
Proof.
  apply (C6_highest_version_selected
           (Sample.host_of (Sample.disk_scan example_scan)) "/opt/st").
  - reflexivity.
  - apply Permutation_refl.
Defined.

(** C6 as stated fails: the version number is not monotonic on versions
    whose patch number reaches 1000.  The version 1.0.1001 is below 1.1.0 and
    its number is above, and in a folder holding both it is selected. *)
Lemma C6_linearization_not_monotonic :
  version_lt (1, 0, 1001) (1, 1, 0)
  /\ linearize (1, 1, 0) < linearize (1, 0, 1001)
  /\ find_highest_clt_version
       (Sample.host_of
          (Sample.disk_scan ["stm32cubeclt_1.1.0"; "stm32cubeclt_1.0.1001"]))
       "/opt/st"
     = Some "/opt/st/stm32cubeclt_1.0.1001".
Proof.
  split; [|split].
  - cbn. lia.
  - reflexivity.
  - reflexivity.
Qed.

(** * Further properties of the runner *)

(** ** The scan of the installations *)

(** Where the first entry of the sorted list stood: before it only smaller
    keys, after it no greater key. *)
Lemma sorted_reverse_first {A} (l : list (Z * A)) (x : Z * A) (l' : list (Z * A)) :
  sorted_reverse l = x :: l' ->
  exists l1 l2,
    l = (l1 ++ x :: l2)%list
    /\ (forall y, In y l1 -> fst y < fst x)
    /\ (forall y, In y l2 -> fst y <= fst x).
Proof.
  revert x l'. induction l as [|a l IH]; intros x l'; [discriminate|].
  cbn [sorted_reverse].
  destruct (sorted_reverse l) as [|y m] eqn:Hsorted.
  - apply sorted_reverse_nil in Hsorted. subst l.
    cbn [insert_desc]. intros [= <- _]. exists [], []. cbn. intuition.
  - destruct (IH y m eq_refl) as (l1 & l2 & -> & Hbefore & Hafter).
    cbn [insert_desc]. destruct (Z.ltb_spec (fst a) (fst y)) as [Hlt|Hge].
    + intros [= <- _]. exists (a :: l1), l2. split; [reflexivity|].
      split; [|assumption].
      intros z [<-|Hz]; [assumption | apply Hbefore; assumption].
    + intros [= <- _]. exists [], (l1 ++ y :: l2)%list. split; [reflexivity|].
      split; [intros z []|].
      intros z Hz. apply in_app_iff in Hz.
      destruct Hz as [Hz|[<-|Hz]];
        [specialize (Hbefore z Hz) | | specialize (Hafter z Hz)]; lia.
Qed.

(** X1: among the installations of the folder, the one found is the first in
    the order of the listing that has the greatest version number: every
    installation listed before it has a smaller number, none after it has a
    greater one. *)
Theorem X1_first_of_the_greatest (h : Host) (tools_folder f : string) :
  find_highest_clt_version h tools_folder = Some f ->
  exists v before after,
    installations h (iterdir h tools_folder) = (before ++ (v, f) :: after)%list
    /\ (forall v' f', In (v', f') before -> v' < v)
    /\ (forall v' f', In (v', f') after -> v' <= v).
Proof.
  unfold find_highest_clt_version.
  destruct (is_dir h tools_folder); cbn [negb]; [|discriminate].
  destruct (sorted_reverse _) as [|[v g] l'] eqn:Hsorted; [discriminate|].
  intros [= <-]. apply sorted_reverse_first in Hsorted.
  destruct Hsorted as (l1 & l2 & Hsplit & Hbefore & Hafter).
  exists v, l1, l2. split; [assumption|]. split.
  - intros v' f' Hin. apply (Hbefore (v', f')). assumption.
  - intros v' f' Hin. apply (Hafter (v', f')). assumption.
Qed.

Lemma X1_first_of_the_greatest_witness :
  exists v before after,
    installations (Sample.host_of scan_a)
      (iterdir (Sample.host_of scan_a) "/opt/st")
    = (before ++ (v, "/opt/st/stm32cubeclt_1.18.0") :: after)%list
    /\ (forall v' f', In (v', f') before -> v' < v)
    /\ (forall v' f', In (v', f') after -> v' <= v).
Proof.
  apply (X1_first_of_the_greatest (Sample.host_of scan_a) "/opt/st").
  reflexivity.
Defined.

(** X2: nothing is found exactly when the folder is no directory or no entry
    of it has a name that matches the pattern; what is found is an entry of
    the folder whose name matches. *)
Theorem X2_nothing_found_iff (h : Host) (tools_folder : string) :
  (find_highest_clt_version h tools_folder = None <->
   is_dir h tools_folder = false
   \/ forall f, In f (iterdir h tools_folder) ->
                CUBECLT_FLDR_RE_match (name h f) = None)
  /\ (forall f,
        find_highest_clt_version h tools_folder = Some f ->
        In f (iterdir h tools_folder)
        /\ CUBECLT_FLDR_RE_match (name h f) <> None).
Proof.
  split.
  - split.
    + intros Hnone.
      destruct (is_dir h tools_folder) eqn:Hdir; [right | left; reflexivity].
      intros f Hf.
      destruct (CUBECLT_FLDR_RE_match (name h f)) as [[[m1 m2] m3]|] eqn:Hmatch;
        [exfalso | reflexivity].
      destruct (find_highest_some h tools_folder Hdir) as (g & Hg); [|congruence].
      intros Hnil.
      assert (Hin : In (ver_num (Py.int m1) (Py.int m2) (Py.int m3), f)
                      (installations h (iterdir h tools_folder))).
      { apply in_installations. split; [assumption|]. exists m1, m2, m3. auto. }
      rewrite Hnil in Hin. contradiction.
    + intros [Hdir|Hnone].
      * unfold find_highest_clt_version. rewrite Hdir. reflexivity.
      * destruct (find_highest_clt_version h tools_folder) as [f|] eqn:Hfound;
          [exfalso | reflexivity].
        apply find_highest_is_greatest in Hfound.
        destruct Hfound as (v & Hin & _).
        apply in_installations in Hin.
        destruct Hin as (Hf & m1 & m2 & m3 & Hmatch & _).
        rewrite (Hnone f Hf) in Hmatch. discriminate.
  - intros f Hfound.
    apply find_highest_is_greatest in Hfound.
    destruct Hfound as (v & Hin & _).
    apply in_installations in Hin.
    destruct Hin as (Hf & m1 & m2 & m3 & Hmatch & _).
    split; [assumption|]. rewrite Hmatch. discriminate.
Qed.

Lemma same_key_same_entry {A} (l : list (Z * A)) (x y : Z * A) :
  NoDup (map fst l) -> In x l -> In y l -> fst x = fst y -> x = y.
Proof.
  induction l as [|a l IH]; intros Hnodup Hx Hy Hkey; [contradiction|].
  cbn [map] in Hnodup. inversion Hnodup as [|k ks Hnotin Hrest]; subst.
  destruct Hx as [<-|Hx], Hy as [<-|Hy].
  - reflexivity.
  - exfalso. apply Hnotin. rewrite Hkey. apply in_map. assumption.
  - exfalso. apply Hnotin. rewrite <- Hkey. apply in_map. assumption.
  - apply IH; assumption.
Qed.

Lemma installations_ext (h h' : Host) (entries : list string) :
  (forall f, name h f = name h' f) ->
  installations h entries = installations h' entries.
Proof.
  intros Hname. unfold installations.
  apply flat_map_ext. intros f. rewrite Hname. reflexivity.
Qed.

(** X3: when the installations have distinct version numbers, the order in
    which the folder lists its entries does not matter: two hosts that list
    the same entries in different orders find the same installation. *)
Theorem X3_listing_order_irrelevant (h h' : Host) (tools_folder : string) :
  is_dir h tools_folder = is_dir h' tools_folder ->
  (forall f, name h f = name h' f) ->
  Permutation (iterdir h tools_folder) (iterdir h' tools_folder) ->
  NoDup (map fst (installations h (iterdir h tools_folder))) ->
  find_highest_clt_version h tools_folder = find_highest_clt_version h' tools_folder.
Proof.
  intros Hdir Hname Hperm Hnodup.
  assert (Hinst : Permutation (installations h (iterdir h tools_folder))
                    (installations h' (iterdir h' tools_folder))).
  { rewrite <- (installations_ext h h' _ Hname).
    unfold installations. apply Permutation_flat_map. assumption. }
  unfold find_highest_clt_version. rewrite <- Hdir.
  destruct (is_dir h tools_folder); cbn [negb]; [|reflexivity].
  destruct (sorted_reverse (installations h _)) as [|x l] eqn:Hx;
    destruct (sorted_reverse (installations h' _)) as [|x' l'] eqn:Hx'.
  - reflexivity.
  - apply sorted_reverse_nil in Hx. rewrite Hx in Hinst.
    apply Permutation_nil in Hinst. rewrite Hinst in Hx'. discriminate.
  - apply sorted_reverse_nil in Hx'. rewrite Hx' in Hinst.
    apply Permutation_sym, Permutation_nil in Hinst. rewrite Hinst in Hx.
    discriminate.
  - apply sorted_reverse_head in Hx, Hx'.
    destruct Hx as [Hin Hmax], Hx' as [Hin' Hmax'].
    assert (Hin'' : In x' (installations h (iterdir h tools_folder))).
    { apply (Permutation_in _ (Permutation_sym Hinst)). assumption. }
    assert (Hkey : fst x = fst x').
    { specialize (Hmax x' Hin'').
      specialize (Hmax' x (Permutation_in _ Hinst Hin)). lia. }
    rewrite (same_key_same_entry _ x x' Hnodup Hin Hin'' Hkey). reflexivity.
Qed.

Lemma X3_listing_order_irrelevant_witness :
  find_highest_clt_version (Sample.host_of scan_a) "/opt/st"
  = find_highest_clt_version (Sample.host_of scan_b) "/opt/st".
Proof.
  apply (X3_listing_order_irrelevant (Sample.host_of scan_a) (Sample.host_of scan_b)).
  - reflexivity.
  - reflexivity.
  - cbn. apply perm_trans with
      ["/opt/st/STM32CubeCLT_1.9.0"; "/opt/st/stm32cubeclt_1.18.0"; "/opt/st/junk"].
    + apply perm_trans with
        ["/opt/st/stm32cubeclt_1.18.0"; "/opt/st/STM32CubeCLT_1.9.0"; "/opt/st/junk"].
      * apply perm_skip. apply perm_swap.
      * apply perm_swap.
    + apply Permutation_refl.
  - vm_compute. repeat constructor; cbn; intuition discriminate.
Defined.

(** ** The pattern of the folder names *)

Lemma match_literal_app (p rest : string) :
  match_literal (lower_string p) (p ++ rest) = Some rest.
Proof.
  induction p as [|c p IH]; [reflexivity|].
  cbn [lower_string append match_literal]. rewrite Ascii.eqb_refl. exact IH.
Qed.

Lemma match_literal_inv (lit s rest : string) :
  match_literal lit s = Some rest ->
  exists p, s = p ++ rest /\ lower_string p = lit.
Proof.
  revert s. induction lit as [|l lit IH]; intros s; cbn [match_literal].
  - intros [= ->]. exists EmptyString. split; reflexivity.
  - destruct s as [|c s]; [discriminate|].
    destruct (Ascii.eqb_spec (Py.lower c) l) as [<-|]; [|discriminate].
    intros Hrest. destruct (IH _ Hrest) as (p & -> & <-).
    exists (String c p). split; reflexivity.
Qed.

Lemma digits_prefix_app (d rest : string) :
  all_digits d = true -> no_digit_first rest = true ->
  digits_prefix (d ++ rest) = d.
Proof.
  intros Hd Hrest. induction d as [|c d IH]; cbn [append].
  - destruct rest as [|c rest]; [reflexivity|].
    cbn in Hrest |- *. apply negb_true_iff in Hrest. rewrite Hrest. reflexivity.
  - cbn in Hd |- *. apply andb_true_iff in Hd. destruct Hd as [Hc Hd].
    rewrite Hc, (IH Hd). reflexivity.
Qed.

Lemma digits_prefix_split (s : string) :
  exists rest,
    s = digits_prefix s ++ rest
    /\ all_digits (digits_prefix s) = true
    /\ no_digit_first rest = true.
Proof.
  induction s as [|c s (rest & Hs & Hd & Hrest)].
  - exists EmptyString. repeat split.
  - cbn [digits_prefix]. destruct (Py.isdigit c) eqn:Hc.
    + exists rest. cbn [append all_digits]. rewrite <- Hs, Hc, Hd. repeat split.
      assumption.
    + exists (String c s). cbn. rewrite Hc. repeat split.
Qed.

Lemma digits_dot_digits_app (minor patch rest : string) (sep : ascii) :
  all_digits minor = true ->
  Py.isdigit sep = false -> any_char sep = true ->
  all_digits patch = true -> patch <> EmptyString ->
  no_digit_first rest = true ->
  digits_dot_digits (minor ++ String sep (patch ++ rest)) = Some (minor, patch).
Proof.
  intros Hminor Hsep Hany Hpatch Hne Hrest.
  induction minor as [|c minor IH]; cbn [append digits_dot_digits].
  - rewrite Hsep. cbn [dot_digits]. rewrite Hany.
    rewrite (digits_prefix_app _ _ Hpatch Hrest).
    destruct patch; [contradiction|reflexivity].
  - cbn in Hminor. apply andb_true_iff in Hminor. destruct Hminor as [Hc Hminor].
    rewrite Hc, (IH Hminor). reflexivity.
Qed.

Lemma digits_dot_digits_inv (s g g3 : string) :
  digits_dot_digits s = Some (g, g3) ->
  exists sep rest,
    s = g ++ String sep (g3 ++ rest)
    /\ all_digits g = true /\ any_char sep = true
    /\ all_digits g3 = true /\ g3 <> EmptyString
    /\ no_digit_first rest = true.
Proof.
  assert (Hdot : forall t g', dot_digits t = Some g' ->
            exists sep rest,
              t = String sep (g' ++ rest) /\ any_char sep = true
              /\ all_digits g' = true /\ g' <> EmptyString
              /\ no_digit_first rest = true).
  { intros t g'. unfold dot_digits. destruct t as [|c t]; [discriminate|].
    destruct (any_char c) eqn:Hany; [|discriminate].
    destruct (digits_prefix_split t) as (rest & Ht & Hd & Hrest).
    destruct (digits_prefix t) as [|d ds] eqn:Hprefix; [discriminate|].
    intros [= <-]. exists c, rest. rewrite <- Ht. repeat split; auto. discriminate. }
  revert g. induction s as [|c s IH]; intros g; cbn [digits_dot_digits];
    [discriminate|].
  destruct (Py.isdigit c) eqn:Hc.
  - destruct (digits_dot_digits s) as [[g' g3']|] eqn:Hrec.
    + intros [= <- <-].
      destruct (IH g' eq_refl) as (sep & rest & -> & Hg & Hany & Hg3 & Hne & Hrest).
      exists sep, rest. cbn [append all_digits]. rewrite Hc, Hg. repeat split; auto.
    + destruct (dot_digits (String c s)) as [g'|] eqn:Hd; [|discriminate].
      intros [= <- <-]. destruct (Hdot _ _ Hd) as (sep & rest & Hs & H).
      exists sep, rest. rewrite Hs. cbn [append all_digits]. tauto.
  - destruct (dot_digits (String c s)) as [g'|] eqn:Hd; [|discriminate].
    intros [= <- <-]. destruct (Hdot _ _ Hd) as (sep & rest & Hs & H).
    exists sep, rest. rewrite Hs. cbn [append all_digits]. tauto.
Qed.

(** X4: a folder named by the prefix [stm32cubeclt_] in any case, a major
    digit from 1 to 9, a separator, the digits of the minor number, a
    separator that is no digit, the digits of the patch number and a rest
    that starts with no digit is matched, and the groups are the three
    numbers as written.  The separators need not be dots: any character but
    a newline will do. *)
Theorem X4_pattern_reads_versions (p minor patch rest : string)
    (major sep1 sep2 : ascii) :
  lower_string p = "stm32cubeclt_" ->
  digit_1_9 major = true ->
  any_char sep1 = true ->
  all_digits minor = true -> minor <> EmptyString ->
  Py.isdigit sep2 = false -> any_char sep2 = true ->
  all_digits patch = true -> patch <> EmptyString ->
  no_digit_first rest = true ->
  CUBECLT_FLDR_RE_match
    (p ++ String major (String sep1 (minor ++ String sep2 (patch ++ rest))))
  = Some (String major EmptyString, minor, patch).
Proof.
  intros Hp Hmajor Hsep1 Hminor Hne Hsep2 Hany2 Hpatch Hne' Hrest.
  unfold CUBECLT_FLDR_RE_match.
  rewrite <- Hp, match_literal_app.
  destruct minor as [|c minor]; [contradiction|].
  cbn in Hminor. apply andb_true_iff in Hminor. destruct Hminor as [Hc Hminor].
  cbn [append]. rewrite Hmajor, Hsep1, Hc. cbn [andb].
  rewrite (digits_dot_digits_app minor patch rest sep2) by assumption.
  reflexivity.
Qed.

Lemma X4_pattern_reads_versions_witness :
  CUBECLT_FLDR_RE_match "STM32CubeCLT_1-18_0-beta" = Some ("1", "18", "0").
Proof.
  apply (X4_pattern_reads_versions "STM32CubeCLT_" "18" "0" "-beta" "1" "-" "_");
    (reflexivity || discriminate).
Defined.

Lemma int_digits_bounds (s : string) (acc : Z) :
  all_digits s = true -> 0 <= acc -> acc <= Py.int_digits acc s.
Proof.
  revert acc. induction s as [|c s IH]; intros acc Hs Hacc; cbn [Py.int_digits];
    [lia|].
  cbn in Hs. apply andb_true_iff in Hs. destruct Hs as [Hc Hs].
  unfold Py.isdigit in Hc. apply andb_true_iff in Hc. destruct Hc as [Hlo Hhi].
  apply Nat.leb_le in Hlo, Hhi.
  specialize (IH (10 * acc + (Z.of_nat (nat_of_ascii c) - 48)) Hs). lia.
Qed.

(** X5: whatever name is matched, it is made as the pattern says: the
    prefix in some case, one major digit from 1 to 9, a character, the
    digits of the second group, a character, the digits of the third group,
    and a rest that starts with no digit.  So the major number read is
    between 1 and 9, the others are not negative, and the version number is
    at least 1000000: a major number of two digits is never read. *)
Theorem X5_matched_names (s m1 m2 m3 : string) :
  CUBECLT_FLDR_RE_match s = Some (m1, m2, m3) ->
  (exists p major sep1 sep2 rest,
     s = p ++ String major (String sep1 (m2 ++ String sep2 (m3 ++ rest)))
     /\ lower_string p = "stm32cubeclt_"
     /\ m1 = String major EmptyString /\ digit_1_9 major = true
     /\ any_char sep1 = true /\ any_char sep2 = true
     /\ all_digits m2 = true /\ m2 <> EmptyString
     /\ all_digits m3 = true /\ m3 <> EmptyString
     /\ no_digit_first rest = true)
  /\ 1 <= Py.int m1 <= 9
  /\ 0 <= Py.int m2
  /\ 0 <= Py.int m3
  /\ 1000000 <= ver_num (Py.int m1) (Py.int m2) (Py.int m3).
Proof.
  unfold CUBECLT_FLDR_RE_match.
  destruct (match_literal "stm32cubeclt_" s) as [[|c1 [|c2 [|c3 t]]]|] eqn:Hlit;
    try discriminate.
  destruct (digit_1_9 c1) eqn:H1; [|discriminate].
  destruct (any_char c2) eqn:H2; [|discriminate].
  destruct (Py.isdigit c3) eqn:H3; [|discriminate].
  cbn [andb].
  destruct (digits_dot_digits t) as [[g g3]|] eqn:Hrest; [|discriminate].
  intros [= <- <- <-].
  apply match_literal_inv in Hlit. destruct Hlit as (p & -> & Hp).
  apply digits_dot_digits_inv in Hrest.
  destruct Hrest as (sep & rest & -> & Hg & Hany & Hg3 & Hne & Hnd).
  assert (Hm2 : all_digits (String c3 g) = true) by (cbn; rewrite H3, Hg; reflexivity).
  assert (Hmajor : 1 <= Py.int (String c1 EmptyString) <= 9).
  { unfold Py.int. cbn [Py.int_digits]. unfold digit_1_9 in H1.
    apply andb_true_iff in H1. destruct H1 as [Hlo Hhi].
    apply Nat.leb_le in Hlo, Hhi. lia. }
  assert (Hminor : 0 <= Py.int (String c3 g)).
  { apply (int_digits_bounds _ 0 Hm2). lia. }
  assert (Hpatch : 0 <= Py.int g3).
  { apply (int_digits_bounds _ 0 Hg3). lia. }
  split; [|split; [|split; [|split]]]; try assumption.
  - exists p, c1, c2, sep, rest. repeat split; auto. discriminate.
  - unfold ver_num. lia.
Qed.

Lemma X5_matched_names_witness :
  1 <= Py.int "2" <= 9 /\ 0 <= Py.int "0" /\ 0 <= Py.int "99".
Proof.
  destruct (X5_matched_names "stm32cubeclt_2.0.99" "2" "0" "99" eq_refl)
    as (_ & Hmajor & Hminor & Hpatch & _).
  auto.
Defined.

(** ** The address windows *)

(** X6: the FSBL test looks at the low 32 bits of the address only, and
    holds exactly when they lie in [0x34180000, 0x3418FFFF], the region the
    docstring names.  For a 32-bit address the test is the window itself. *)
Theorem X6_fsbl_window_exact (start_address : Z) :
  (_is_fsbl_mode start_address = true <->
   0x34180000 <= start_address mod 2 ^ 32 <= 0x3418FFFF)
  /\ (0 <= start_address < 2 ^ 32 ->
      (_is_fsbl_mode start_address = true <->
       0x34180000 <= start_address <= 0x3418FFFF)).
Proof.
  assert (Hmod : Z.land start_address 0xFFFF0000
                 = Z.land (start_address mod 2 ^ 32) 0xFFFF0000).
  { rewrite <- (Z.land_ones start_address 32) by lia.
    rewrite <- Z.land_assoc. reflexivity. }
  assert (Hexact : _is_fsbl_mode start_address = true <->
                   0x34180000 <= start_address mod 2 ^ 32 <= 0x3418FFFF).
  { unfold _is_fsbl_mode. rewrite Z.eqb_eq, Hmod.
    assert (Hb : 0 <= start_address mod 2 ^ 32 < 2 ^ 32)
      by (apply Z.mod_pos_bound; lia).
    set (b := start_address mod 2 ^ 32) in *. clearbody b.
    rewrite land_upper_half, Z.shiftr_div_pow2 by lia.
    change (2 ^ 32) with 4294967296 in Hb. change (2 ^ 16) with 65536.
    assert (Hq : 0 <= b / 65536 < 65536).
    { split; [apply Z.div_pos | apply Z.div_lt_upper_bound]; lia. }
    change 0xFFFF with (Z.ones 16). rewrite Z.land_ones by lia.
    change (2 ^ 16) with 65536.
    rewrite Z.mod_small by assumption.
    rewrite Z.shiftl_mul_pow2 by lia. change (2 ^ 16) with 65536.
    pose proof (Z.div_mod b 65536 ltac:(lia)) as Hdiv.
    pose proof (Z.mod_pos_bound b 65536 ltac:(lia)) as Hrem.
    lia. }
  split; [exact Hexact|].
  intros Hrange. rewrite Hexact, Z.mod_small by assumption. reflexivity.
Qed.

Lemma X6_fsbl_window_exact_witness :
  _is_fsbl_mode 0x3418FFFF = true <-> 0x34180000 <= 0x3418FFFF <= 0x3418FFFF.
Proof.
  apply (X6_fsbl_window_exact 0x3418FFFF). cbn. lia.
Defined.

(** ** Reading the entry point *)

Lemma entry_point_first_line (pre post : list string) (line : string) :
  (forall l, In l pre -> Py.contains "Entry point address" l = false) ->
  Py.contains "Entry point address" line = true ->
  entry_point_of_lines (pre ++ line :: post) = entry_point_of_lines [line].
Proof.
  intros Hpre Hline. induction pre as [|l pre IH]; cbn [app entry_point_of_lines].
  - rewrite Hline. reflexivity.
  - rewrite (Hpre l) by (left; reflexivity).
    apply IH. intros l' Hl'. apply Hpre. right. assumption.
Qed.

(** X7: the start address is decided by the first line of the header dump
    that mentions the entry point, whatever comes after it: the address is
    the hexadecimal number in the field after the first colon of that line,
    and 0 when the line has no colon or the field is no such number; later
    lines are not tried. *)
Theorem X7_first_entry_line_decides (h : Host) (self : Runner)
    (elf stdout line : string) (pre post : list string) :
  elf_file self = Some elf ->
  readelf_h h elf = Some stdout ->
  Py.split "010" stdout = (pre ++ line :: post)%list ->
  (forall l, In l pre -> Py.contains "Entry point address" l = false) ->
  Py.contains "Entry point address" line = true ->
  _get_start_address h self =
    match Py.index (Py.split ":" line) 1 with
    | Some field =>
        match Py.int16 (Py.strip field) with
        | Some address => address
        | None => 0
        end
    | None => 0
    end.
Proof.
  intros Helf Hrun Hlines Hpre Hline.
  unfold _get_start_address. rewrite Helf, Hrun, Hlines.
  rewrite (entry_point_first_line _ _ _ Hpre Hline).
  cbn [entry_point_of_lines]. rewrite Hline.
  destruct (Py.index (Py.split ":" line) 1); reflexivity.
Qed.

Lemma X7_first_entry_line_decides_witness :
  _get_start_address (Sample.host_of Sample.disk_fsbl) Sample.default_runner
  = 0x34185000.
Proof.
  refine (X7_first_entry_line_decides (Sample.host_of Sample.disk_fsbl)
            Sample.default_runner "build/zephyr/zephyr.elf"
            (Sample.header_dump "0x34185000")
            "  Entry point address:               0x34185000"
            ["ELF Header:"; "  Class:                             ELF32"]
            ["  Start of program headers:          52 (bytes into file)"; ""]
            eq_refl eq_refl eq_refl _ eq_refl).
  intros l [<-|[<-|[]]]; reflexivity.
Defined.

(** ** Reading the SoC family *)

Lemma prefix_app (p t : string) : String.prefix p (p ++ t) = true.
Proof.
  induction p as [|c p IH]; cbn.
  - destruct t; reflexivity.
  - destruct (ascii_dec c c); [assumption|contradiction].
Qed.

Lemma prefix_inv (p s : string) :
  String.prefix p s = true -> exists t, s = p ++ t.
Proof.
  revert s. induction p as [|c p IH]; intros s.
  - intros _. exists s. reflexivity.
  - destruct s as [|d s]; cbn; [discriminate|].
    destruct (ascii_dec c d) as [<-|]; [|discriminate].
    intros Hp. destruct (IH _ Hp) as (t & ->). exists t. reflexivity.
Qed.

Lemma append_assoc (a b c : string) : (a ++ b) ++ c = a ++ (b ++ c).
Proof. induction a as [|x a IH]; cbn; [|rewrite IH]; reflexivity. Qed.

Lemma prefix_app_l (p a b : string) :
  String.prefix p a = true -> String.prefix p (a ++ b) = true.
Proof.
  intros Hp. destruct (prefix_inv _ _ Hp) as (t & ->).
  rewrite append_assoc. apply prefix_app.
Qed.

Lemma contains_prefix (sub s : string) :
  String.prefix sub s = true -> Py.contains sub s = true.
Proof. intros Hp. destruct s; cbn [Py.contains]; rewrite Hp; reflexivity. Qed.

Lemma contains_app_r (sub a t : string) :
  Py.contains sub t = true -> Py.contains sub (a ++ t) = true.
Proof.
  intros Ht. induction a as [|c a IH]; [assumption|].
  cbn [append Py.contains]. rewrite IH. apply orb_true_r.
Qed.

Lemma split_first_field (sep : ascii) (a b : string) :
  has_char sep a = false ->
  exists fields, Py.split sep (a ++ String sep b) = a :: fields.
Proof.
  intros Ha. induction a as [|c a IH]; cbn [append Py.split].
  - rewrite Ascii.eqb_refl. eexists. reflexivity.
  - cbn in Ha. apply orb_false_iff in Ha. destruct Ha as [Hc Ha].
    rewrite Hc. destruct (IH Ha) as (fields & ->). eexists. reflexivity.
Qed.

Lemma has_char_app (c : ascii) (a b : string) :
  has_char c (a ++ b) = has_char c a || has_char c b.
Proof.
  induction a as [|d a IH]; [reflexivity|].
  cbn [append has_char]. rewrite IH. apply orb_assoc.
Qed.

Lemma replace_nothing (s : string) :
  has_char "_" s = false ->
  Py.replace_from 0 "CONFIG_SOC_SERIES_" EmptyString s = s.
Proof.
  induction s as [|c s IH]; intros Hs; [reflexivity|].
  cbn [Py.replace_from].
  destruct (String.prefix "CONFIG_SOC_SERIES_" (String c s)) eqn:Hp.
  - apply prefix_inv in Hp. destruct Hp as (t & Ht).
    rewrite Ht, has_char_app in Hs. discriminate.
  - cbn in Hs. apply orb_false_iff in Hs. destruct Hs as [_ Hs].
    rewrite (IH Hs). reflexivity.
Qed.

Lemma replace_skip (old new a t : string) :
  Py.replace_from (String.length a) old new (a ++ t) = Py.replace_from 0 old new t.
Proof. induction a as [|x a IH]; [reflexivity | exact IH]. Qed.

Lemma replace_at_prefix (c : ascii) (a new t : string) :
  Py.replace_from 0 (String c a) new (String c a ++ t)
  = new ++ Py.replace_from 0 (String c a) new t.
Proof.
  change (String c a ++ t) with (String c (a ++ t)).
  cbn [Py.replace_from].
  change (String c (a ++ t)) with (String c a ++ t).
  rewrite prefix_app. cbn [String.length]. rewrite Nat.sub_1_r. cbn [Nat.pred].
  rewrite replace_skip. reflexivity.
Qed.

Lemma rstrip_no_space (s : string) : no_space s = true -> Py.rstrip s = s.
Proof.
  induction s as [|c s IH]; intros Hs; [reflexivity|].
  cbn in Hs. apply andb_true_iff in Hs. destruct Hs as [Hc Hs].
  apply negb_true_iff in Hc.
  cbn [Py.rstrip]. rewrite (IH Hs), Hc. destruct s; reflexivity.
Qed.

Lemma strip_no_space (s : string) : no_space s = true -> Py.strip s = s.
Proof.
  intros Hs. unfold Py.strip.
  assert (Hl : Py.lstrip s = s).
  { destruct s as [|c s]; [reflexivity|].
    cbn in Hs. apply andb_true_iff in Hs. destruct Hs as [Hc _].
    apply negb_true_iff in Hc. cbn [Py.lstrip]. rewrite Hc. reflexivity. }
  rewrite Hl. apply rstrip_no_space. assumption.
Qed.

Lemma soc_of_lines_first (pre post : list string) (line : string) :
  (forall l, In l pre -> soc_line l = false) ->
  soc_line line = true ->
  soc_of_lines (pre ++ line :: post) = soc_of_lines [line].
Proof.
  intros Hpre Hline. unfold soc_line in *.
  induction pre as [|l pre IH]; cbn [app soc_of_lines].
  - rewrite Hline. reflexivity.
  - rewrite (Hpre l) by (left; reflexivity).
    apply IH. intros l' Hl'. apply Hpre. right. assumption.
Qed.

(** X8: the SoC family is read off the first line of the configuration that
    starts with [CONFIG_SOC_SERIES_STM32] and holds [=y].  When that line is
    [CONFIG_SOC_SERIES_<series>=y...] and the series has no underscore, no
    equals sign and no white space, the family is the first seven characters
    of the series; so every series that starts with [STM32N6] gives the
    family [STM32N6]. *)
Theorem X8_soc_family_of_series (h : Host) (self : Runner)
    (pre post : list string) (series tail : string) :
  path_exists h (config_file_of h self) = true ->
  read_lines h (config_file_of h self)
    = (pre ++ ("CONFIG_SOC_SERIES_" ++ series ++ "=y" ++ tail)%string :: post)%list ->
  (forall l, In l pre -> soc_line l = false) ->
  Py.startswith series "STM32" = true ->
  has_char "_" series = false ->
  has_char "=" series = false ->
  no_space series = true ->
  _get_stm32_soc h self = Py.slice_to 7 series
  /\ (Py.startswith series "STM32N6" = true -> _get_stm32_soc h self = "STM32N6").
Proof.
  intros Hexists Hlines Hpre Hstm Hus Heq Hsp.
  assert (Hprefix : Py.startswith ("CONFIG_SOC_SERIES_" ++ series ++ "=y" ++ tail)
                      "CONFIG_SOC_SERIES_STM32" = true).
  { unfold Py.startswith in *. cbn. apply prefix_app_l. assumption. }
  assert (Hvalue : Py.contains "=y" ("CONFIG_SOC_SERIES_" ++ series ++ "=y" ++ tail)
                   = true).
  { apply contains_app_r, contains_app_r, contains_prefix, prefix_app. }
  assert (Hsoc : _get_stm32_soc h self = Py.slice_to 7 series).
  { unfold _get_stm32_soc. fold (config_file_of h self).
    rewrite Hexists, Hlines. cbn [negb].
    rewrite soc_of_lines_first;
      [| assumption | unfold soc_line; rewrite Hprefix, Hvalue; reflexivity].
    cbn [soc_of_lines]. rewrite Hprefix, Hvalue. cbn [andb].
    destruct (split_first_field "=" ("CONFIG_SOC_SERIES_" ++ series) ("y" ++ tail))
      as (fields & Hsplit).
    { rewrite has_char_app, Heq. reflexivity. }
    rewrite append_assoc in Hsplit.
    change ("=y" ++ tail) with (String "=" ("y" ++ tail)).
    rewrite Hsplit. cbn [nth].
    unfold Py.replace. rewrite replace_at_prefix. cbn [append].
    rewrite (replace_nothing _ Hus), (strip_no_space _ Hsp). reflexivity. }
  split; [exact Hsoc|].
  intros Hn6. rewrite Hsoc. unfold Py.startswith in Hn6.
  apply prefix_inv in Hn6. destruct Hn6 as (t & ->).
  cbn. destruct t; reflexivity.
Qed.

Lemma X8_soc_family_of_series_witness :
  _get_stm32_soc (Sample.host_of Sample.disk_fsbl) Sample.default_runner = "STM32N6".
Proof.
  refine (proj2 (X8_soc_family_of_series (Sample.host_of Sample.disk_fsbl)
                   Sample.default_runner
                   [String "#" (" Generated configuration" ++ String "010" EmptyString)]
                   [String "C" ("ONFIG_BOARD=stm32n6570_dk" ++ String "010" EmptyString)]
                   "STM32N6X" (String "010" EmptyString)
                   eq_refl eq_refl _ eq_refl eq_refl eq_refl eq_refl) eq_refl).
  intros l [<-|[]]. reflexivity.
Defined.

(** X9: without a configuration file the family is [unknown] and the mode is
    never FlashChained, whatever the entry point; and the mode is
    FlashChained only when the configuration exists and has a line that
    selects an STM32 series. *)
Theorem X9_chained_needs_configuration (h : Host) (self : Runner) :
  (path_exists h (config_file_of h self) = false ->
   _get_stm32_soc h self = "unknown" /\ mode_of h self <> FlashChained)
  /\ (mode_of h self = FlashChained ->
      path_exists h (config_file_of h self) = true
      /\ exists line,
           In line (read_lines h (config_file_of h self))
           /\ soc_line line = true).
Proof.
  assert (Hunknown : forall a, classify a "unknown" <> FlashChained).
  { intros a. unfold classify.
    destruct (Z.land a 0xFFFF0000 =? 0x34180000); [discriminate|].
    destruct ((0x34000000 <=? a) && (a <? 0x34180000)); discriminate. }
  assert (Hlines : forall lines,
            soc_of_lines lines = "unknown"
            \/ exists line, In line lines /\ soc_line line = true).
  { induction lines as [|l lines IH]; [left; reflexivity|].
    cbn [soc_of_lines]. fold (soc_line l).
    destruct (soc_line l) eqn:Hl.
    - right. exists l. split; [left; reflexivity | assumption].
    - destruct IH as [IH|(line & Hin & Hline)]; [left; assumption|].
      right. exists line. split; [right; assumption | assumption]. }
  split.
  - intros Habsent.
    assert (Hsoc : _get_stm32_soc h self = "unknown").
    { unfold _get_stm32_soc. fold (config_file_of h self). rewrite Habsent.
      reflexivity. }
    split; [assumption|]. unfold mode_of. rewrite Hsoc. apply Hunknown.
  - unfold mode_of, _get_stm32_soc. fold (config_file_of h self).
    destruct (path_exists h (config_file_of h self)); cbn [negb].
    + intros Hmode. split; [reflexivity|].
      destruct (Hlines (read_lines h (config_file_of h self))) as [Hu|Hfound];
        [|assumption].
      rewrite Hu in Hmode. exfalso. apply (Hunknown _ Hmode).
    + intros Hmode. exfalso. apply (Hunknown _ Hmode).
Qed.

(** ** The flags of every plan *)

Lemma run_flags (h : Host) (self : Runner) (command : string) (s : spawn) :
  do_attach_debug_debugserver h self command = Ok s ->
  exists flag,
    (flag = "--attach" \/ flag = "--initialize-reset")
    /\ (flag = "--initialize-reset" <->
        command <> "attach" /\ mode_of h self <> FlashChained)
    /\ server_flags (server_of s)
       = ("--halt" :: swd_args self ++ flag :: external_init_flags self)%list.
Proof.
  rewrite do_attach_debug_debugserver_planned. intros Hrun.
  apply planned_ok_inv in Hrun.
  destruct Hrun as (elf & gp & cp & flag & gdb_args & _ & _ & Hbranch & _ & Hs).
  assert (Hserver : server_of s = server_args h self gp cp flag).
  { destruct Hs as [(_ & ->) | (_ & gdb_exe & _ & ->)]; reflexivity. }
  exists flag. rewrite Hserver.
  apply branch_cases in Hbranch.
  destruct Hbranch as [(Hc & -> & _) | [(Hc & Hmode & -> & _) | (Hc & Hmode & -> & _)]].
  - split; [left; reflexivity|]. split.
    + split; [discriminate | intros [Hn _]; contradiction].
    + apply server_flags_server_args. reflexivity.
  - split; [left; reflexivity|]. split.
    + split; [discriminate | intros [_ Hn]; contradiction].
    + apply server_flags_server_args. reflexivity.
  - split; [right; reflexivity|]. split.
    + split; auto.
    + apply server_flags_server_args. reflexivity.
Qed.

(** X10: every server command line has exactly one of [--attach] and
    [--initialize-reset] among its flags, and it is the reset exactly when
    the command is not an attach and the mode is not FlashChained. *)
Theorem X10_one_session_flag (h : Host) (self : Runner) (command : string)
    (s : spawn) :
  do_attach_debug_debugserver h self command = Ok s ->
  List.length (filter session_flag (server_flags (server_of s))) = 1%nat
  /\ (In "--initialize-reset" (server_flags (server_of s)) <->
      command <> "attach" /\ mode_of h self <> FlashChained)
  /\ (In "--attach" (server_flags (server_of s)) <->
      command = "attach" \/ mode_of h self = FlashChained).
Proof.
  intros Hrun. destruct (run_flags _ _ _ _ Hrun) as (flag & Hflag & Hreset & ->).
  assert (Hfilter : filter session_flag
                      ("--halt" :: swd_args self ++ flag :: external_init_flags self)%list
                    = [flag]).
  { unfold swd_args, external_init_flags in *.
    destruct Hflag; subst flag;
      destruct (_swd self), (_external_loader self) as [[|c l]|],
        (_do_external_init self); reflexivity. }
  assert (Hin : forall a, session_flag a = true ->
            (In a ("--halt" :: swd_args self ++ flag :: external_init_flags self)%list
             <-> a = flag)).
  { intros a Ha. split.
    - intros H.
      assert (H' : In a (filter session_flag
                ("--halt" :: swd_args self ++ flag :: external_init_flags self)%list))
        by (apply filter_In; auto).
      rewrite Hfilter in H'. destruct H' as [<-|[]]. reflexivity.
    - intros ->.
      assert (H' : In flag (filter session_flag
                ("--halt" :: swd_args self ++ flag :: external_init_flags self)%list))
        by (rewrite Hfilter; left; reflexivity).
      apply filter_In in H'. tauto. }
  split; [rewrite Hfilter; reflexivity|]. split.
  - rewrite Hin by reflexivity. rewrite <- Hreset. split; congruence.
  - rewrite Hin by reflexivity.
    destruct (String.eqb_spec command "attach") as [Hc|Hc].
    + destruct Hflag as [->| ->]; [tauto|].
      destruct Hreset as [Hr _]. destruct (Hr eq_refl). contradiction.
    + destruct Hflag as [->| ->].
      * split; auto. intros _. right.
        destruct (mode_of h self) eqn:Hmode; try reflexivity; exfalso;
          assert (Hbad : "--attach" = "--initialize-reset")
            by (apply Hreset; split; [assumption | discriminate]);
          discriminate.
      * split; [discriminate|]. destruct Hreset as [Hr _].
        destruct (Hr eq_refl) as [_ Hmode]. intros [Hc'|Hm]; contradiction.
Qed.

Lemma X10_one_session_flag_witness :
  List.length (filter session_flag (server_flags (server_of Sample.two_phase_spawn)))
  = 1%nat.
Proof.
  apply (X10_one_session_flag (Sample.host_of Sample.disk_chained)
           Sample.default_runner "debug").
  reflexivity.
Defined.

(** X11: the initialisation of the external loader is asked for exactly
    when a loader is configured and [--external-init] was given: without a
    loader the option is dropped without a word. *)
Theorem X11_external_init_needs_loader (h : Host) (self : Runner)
    (command : string) (s : spawn) :
  do_attach_debug_debugserver h self command = Ok s ->
  (In "--external-init" (server_flags (server_of s)) <->
   _do_external_init self = true
   /\ exists loader, _external_loader self = Some loader /\ loader <> EmptyString).
Proof.
  intros Hrun. destruct (run_flags _ _ _ _ Hrun) as (flag & Hflag & _ & ->).
  unfold swd_args, external_init_flags.
  destruct (_external_loader self) as [[|c l]|]; destruct (_do_external_init self);
    destruct (_swd self); destruct Hflag; subst flag; cbn;
    split;
    try (intros [H|H]; repeat (destruct H as [H|H]); try discriminate; try contradiction);
    try (intros (H & l' & Hl & Hne); try discriminate; try congruence);
    try (split; [reflexivity | eexists; split; [reflexivity | discriminate]]);
    try tauto.
Qed.

Lemma X11_external_init_needs_loader_witness :
  In "--external-init" (server_flags (server_of loader_spawn)) <->
  _do_external_init runner_loader = true
  /\ exists loader, _external_loader runner_loader = Some loader
                    /\ loader <> EmptyString.
Proof.
  apply (X11_external_init_needs_loader (Sample.host_of disk_loader) runner_loader
           "debug").
  reflexivity.
Defined.

(** ** The values of the options *)

(** X12: read back from the left, an option with the argument after it, the
    server command line gives each option the value of the configuration:
    the programmer folder, the port, the access point, the serial number of
    the probe when one is set, and the path of the external loader when one
    is configured; no value is taken for an option or a flag, whatever text
    it holds. *)
Theorem X12_options_read_back (h : Host) (self : Runner) (command : string)
    (s : spawn) :
  do_attach_debug_debugserver h self command = Ok s ->
  exists gp cp,
    CubeCLT._get_stm32cubeclt_paths h = Ok (gp, cp)
    /\ hd EmptyString (server_of s) = as_posix h gp
    /\ option_value "--stm32cubeprogrammer-path" (tl (server_of s))
       = Some (absolute h cp)
    /\ option_value "--port-number" (tl (server_of s))
       = Some (Py.str (_gdb_port self))
    /\ option_value "--apid" (tl (server_of s)) = Some (Py.str_opt (_ap_id self))
    /\ option_value "--serial-number" (tl (server_of s))
       = match _stlink_serial self with
         | Some (String c serial) => Some (String c serial)
         | _ => None
         end
    /\ option_value "--extload" (tl (server_of s))
       = match _external_loader self with
         | Some (String c loader) => Some (extldr_path_of h cp (String c loader))
         | _ => None
         end.
Proof.
  rewrite do_attach_debug_debugserver_planned. intros Hrun.
  apply planned_ok_inv in Hrun.
  destruct Hrun as (elf & gp & cp & flag & gdb_args & _ & Hpaths & Hbranch & _ & Hs).
  assert (Hflag : flag = "--attach" \/ flag = "--initialize-reset").
  { apply branch_cases in Hbranch.
    destruct Hbranch as [(_ & -> & _) | [(_ & _ & -> & _) | (_ & _ & -> & _)]]; auto. }
  assert (Hserver : server_of s = server_args h self gp cp flag).
  { destruct Hs as [(_ & ->) | (_ & gdb_exe & _ & ->)]; reflexivity. }
  exists gp, cp. rewrite Hserver. split; [assumption|].
  unfold server_args, base_args, swd_args, serial_args, extload_args.
  destruct Hflag; subst flag;
    destruct (_swd self);
    destruct (_stlink_serial self) as [[|c serial]|];
    destruct (_external_loader self) as [[|c' loader]|];
    try destruct (_do_external_init self);
    repeat split.
Qed.

Lemma X12_options_read_back_witness :
  option_value "--serial-number" (tl (server_of loader_spawn)) = Some "0042"
  /\ option_value "--extload" (tl (server_of loader_spawn))
     = Some "/opt/st/clt/prog/bin/ExternalLoader/x.stldr".
Proof.
  destruct (X12_options_read_back (Sample.host_of disk_loader) runner_loader "debug"
              loader_spawn eq_refl)
    as (gp & cp & Hpaths & _ & _ & _ & _ & Hserial & Hloader).
  injection Hpaths as <- <-.
  split; [exact Hserial | exact Hloader].
Defined.

(** ** One server for a session and for the server alone *)

Lemma branch_not_attach (h : Host) (self : Runner) (command elf_path : string) :
  command <> "attach" ->
  branch h self command elf_path = branch h self "debugserver" elf_path.
Proof.
  intros Hc. unfold branch.
  apply String.eqb_neq in Hc. rewrite Hc. reflexivity.
Qed.

(** X13: the command [debugserver] starts the very server a debug session
    would start: when a run of a command other than an attach starts
    something, the run of [debugserver] on the same host and runner starts
    the server with the same argument list, and nothing else. *)
Theorem X13_debugserver_is_the_server_of_debug (h : Host) (self : Runner)
    (command : string) (s : spawn) :
  command <> "attach" ->
  do_attach_debug_debugserver h self command = Ok s ->
  do_run h self "debugserver" = Ok (check_call (server_of s)).
Proof.
  intros Hc.
  pose proof (do_run_command h self ServerOnly) as Hserver.
  cbn [command_of] in Hserver. rewrite Hserver.
  rewrite do_attach_debug_debugserver_planned. unfold planned.
  destruct (elf_file self) as [elf|]; [|discriminate].
  destruct (CubeCLT._get_stm32cubeclt_paths h) as [paths|e]; [|discriminate].
  cbn [bind]. rewrite (branch_not_attach _ _ _ _ Hc).
  destruct (branch h self "debugserver" _) as [chosen|e]; [|discriminate].
  cbn [bind].
  destruct (extload_missing h self (snd paths)); [discriminate|].
  destruct (require h (as_posix h (fst paths))); [|discriminate].
  cbn [bind].
  destruct (String.eqb command "debugserver").
  - intros [= <-]. reflexivity.
  - destruct (gdb self) as [gdb_exe|]; [|discriminate].
    destruct (require h gdb_exe); [|discriminate].
    cbn [bind]. intros [= <-]. reflexivity.
Qed.

Lemma X13_debugserver_is_the_server_of_debug_witness :
  do_run (Sample.host_of Sample.disk_chained) Sample.default_runner "debugserver"
  = Ok (check_call (server_of Sample.two_phase_spawn)).
Proof.
  apply (X13_debugserver_is_the_server_of_debug (Sample.host_of Sample.disk_chained)
           Sample.default_runner "debug").
  - discriminate.
  - reflexivity.
Defined.

(** ** The debugger *)

(** X14: without a debugger configured, neither an attach nor a debug
    session starts anything: the run ends with an error, and the server is
    not started either. *)
Theorem X14_no_debugger_no_session (h : Host) (self : Runner) (command : string) :
  gdb self = None ->
  command <> "debugserver" ->
  exists e, do_attach_debug_debugserver h self command = Raise e.
Proof.
  intros Hgdb Hc.
  destruct (do_attach_debug_debugserver h self command) as [s|e] eqn:Hrun;
    [exfalso | exists e; reflexivity].
  rewrite do_attach_debug_debugserver_planned in Hrun.
  apply planned_ok_inv in Hrun.
  destruct Hrun as (elf & gp & cp & flag & gdb_args & _ & _ & _ & _ & Hs).
  destruct Hs as [(Hc' & _) | (_ & gdb_exe & Hg & _)]; congruence.
Qed.

Lemma X14_no_debugger_no_session_witness :
  exists e,
    do_attach_debug_debugserver (Sample.host_of Sample.disk_fsbl) runner_no_gdb
      "attach" = Raise e.
Proof.
  apply (X14_no_debugger_no_session (Sample.host_of Sample.disk_fsbl) runner_no_gdb
           "attach").
  - reflexivity.
  - discriminate.
Defined.

(** X15: the command [debugserver] does not look at the debugger: two
    runners created alike but for [cfg.gdb] run it alike. *)
Theorem X15_debugserver_ignores_debugger (h : Host)
    (cfg_elf_file : option string) (cfg_build_dir : string)
    (cfg_gdb cfg_gdb' : option string)
    (swd : bool) (ap_id : option Z) (stlink_serial : option string) (gdb_port : Z)
    (external_loader : option string) (external_init two_boot_stage : bool)
    (mcuboot_offset : option string) :
  do_run h
    (__init__ cfg_elf_file cfg_build_dir cfg_gdb swd ap_id stlink_serial gdb_port
       external_loader external_init two_boot_stage mcuboot_offset) "debugserver"
  = do_run h
    (__init__ cfg_elf_file cfg_build_dir cfg_gdb' swd ap_id stlink_serial gdb_port
       external_loader external_init two_boot_stage mcuboot_offset) "debugserver".
Proof.
  pose proof (fun self => do_run_command h self ServerOnly) as Hserver.
  cbn [command_of] in Hserver. rewrite !Hserver.
  unfold planned, branch, server_args, extload_missing, __init__.
  cbn [elf_file gdb].
  destruct cfg_elf_file as [elf|]; [|reflexivity].
  destruct (CubeCLT._get_stm32cubeclt_paths h) as [paths|e]; reflexivity.
Qed.

(** ** The plan outside the two boot stage branch *)

(** X16: a debug session outside the mode FlashChained resets the target
    and loads: the server has the flag [--initialize-reset], and, the path
    of the ELF not being the text [-ex], the debugger is given two commands,
    the connection to the server and the load of the ELF. *)
Theorem X16_debug_resets_and_loads (h : Host) (self : Runner) (s : spawn) :
  mode_of h self <> FlashChained ->
  do_run h self (command_of DebugNew) = Ok s ->
  exists elf,
    elf_file self = Some elf
    /\ In "--initialize-reset" (server_flags (server_of s))
    /\ (as_posix h (Path h elf) <> "-ex" ->
        debugger_commands s =
        [ ("target remote :" ++ Py.str (_gdb_port self))%string;
          ("load " ++ as_posix h (Path h elf))%string ]).
Proof.
  intros Hmode. rewrite do_run_command. intros Hrun.
  apply planned_ok_inv in Hrun.
  destruct Hrun as (elf & gp & cp & flag & gdb_args & Helf & _ & Hbranch & _ & Hs).
  exists elf. split; [assumption|].
  apply branch_cases in Hbranch.
  destruct Hbranch as [(Hc & _) | [(_ & Hm & _) | (_ & _ & -> & ->)]];
    [discriminate | contradiction |].
  destruct Hs as [(Hc & _) | (_ & gdb_exe & _ & ->)]; [discriminate|].
  cbn [server_of debugger_commands client_of tl]. split.
  - rewrite server_flags_server_args by reflexivity.
    right. rewrite in_app_iff. right. left. reflexivity.
  - intros Hpath. apply String.eqb_neq in Hpath.
    unfold connect_args. cbn [app ex_commands].
    rewrite Hpath. reflexivity.
Qed.

Lemma X16_debug_resets_and_loads_witness :
  In "--initialize-reset" (server_flags (server_of loader_spawn))
  /\ debugger_commands loader_spawn
     = ["target remote :3333"; "load build/zephyr/zephyr.elf"].
Proof.
  destruct (X16_debug_resets_and_loads (Sample.host_of disk_loader) runner_loader
              loader_spawn)
    as (elf & Helf & Hflag & Hcommands); [discriminate | reflexivity |].
  injection Helf as <-.
  split; [exact Hflag | apply Hcommands; discriminate].
Defined.

(** ** The errors of a run *)

Lemma locator_errors (h : Host) (e : exn) :
  CubeCLT._get_stm32cubeclt_paths h = Raise e ->
  (e = RuntimeError "Unsupported OS" /\ supported_os h = false)
  \/ (e = MissingProgram "ST-LINK_gdbserver (from STM32CubeCLT)"
      /\ supported_os h = true
      /\ paths_from_which h = None).
Proof.
  unfold _get_stm32cubeclt_paths, os_search_path, supported_os.
  destruct (paths_from_which h); [discriminate|].
  cbn [existsb].
  destruct (String.eqb (platform_system h) "Linux");
    [| destruct (String.eqb (platform_system h) "Windows");
       [| destruct (String.eqb (platform_system h) "Darwin")]];
    cbn [bind orb];
    try (destruct (find_highest_clt_version h _); [discriminate|];
         intros [= <-]; right; auto).
  intros [= <-]. left. auto.
Qed.

(** Every error of [do_attach_debug_debugserver] is a [run_error]. *)
Lemma run_errors (h : Host) (self : Runner) (command : string) (e : exn) :
  do_attach_debug_debugserver h self command = Raise e ->
  run_error h self e.
Proof.
  rewrite do_attach_debug_debugserver_planned. unfold planned.
  destruct (elf_file self) as [elf|] eqn:Helf;
    [| intros [= <-]; apply err_no_elf; assumption].
  destruct (CubeCLT._get_stm32cubeclt_paths h) as [paths|e'] eqn:Hpaths.
  - cbn [bind].
    destruct (branch h self command _) as [chosen|e'] eqn:Hbranch; cbn [bind].
    + destruct (extload_missing h self (snd paths)) as [loader|] eqn:Hloader.
      * intros [= <-]. unfold extload_missing in Hloader.
        destruct (_external_loader self) as [[|c l]|] eqn:Hl; try discriminate.
        destruct (path_exists h _); [discriminate|].
        injection Hloader as <-.
        apply err_no_loader; [assumption | discriminate].
      * unfold require at 1.
        destruct (which h (as_posix h (fst paths))) eqn:Hserver; cbn [bind];
          [| intros [= <-]; apply err_no_program; assumption].
        destruct (String.eqb command "debugserver"); [discriminate|].
        destruct (gdb self) as [gdb_exe|] eqn:Hgdb;
          [| intros [= <-]; apply err_no_gdb; assumption].
        unfold require.
        destruct (which h gdb_exe) eqn:Hclient; cbn [bind]; [discriminate|].
        intros [= <-]. apply err_no_program. assumption.
    + intros [= <-]. apply branch_raise in Hbranch.
      destruct Hbranch as (_ & _ & Hfind).
      assert (Hmsg : exists msg, e' = RuntimeError msg).
      { unfold _find_mcuboot_elf in Hfind.
        destruct (path_exists h _); [discriminate|].
        destruct (path_exists h _); [discriminate|].
        injection Hfind as <-. eexists. reflexivity. }
      destruct Hmsg as (msg & ->). apply err_no_mcuboot. assumption.
  - cbn [bind]. intros [= <-].
    apply locator_errors in Hpaths.
    destruct Hpaths as [(-> & _) | (-> & _)];
      [apply err_unsupported_os | apply err_no_toolchain].
Qed.


(** X17: before anything is started, a run fails with one of eight errors
    and no other: the command that is not supported, the assertion on the
    ELF, the unsupported platform, the toolchain not found, the ELF of the
    bootloader not found, the external loader that does not exist, a program
    that [which] does not find, or the debugger that is required.  What
    [check_call] and [run_server_and_client] raise once the processes run is
    no part of a [result]: a [Raise] is a failure before the spawn. *)
Theorem X17_errors_of_a_run (h : Host) (self : Runner) (command : string) (e : exn) :
  do_run h self command = Raise e ->
  e = ValueError (command ++ " not supported")
  \/ (existsb (String.eqb command) ["attach"; "debug"; "debugserver"] = true
      /\ run_error h self e).
Proof.
  unfold do_run.
  destruct (existsb (String.eqb command) ["attach"; "debug"; "debugserver"]).
  - intros Hrun. right. split; [reflexivity|].
    apply run_errors in Hrun. assumption.
  - intros [= <-]. left. reflexivity.
Qed.

Lemma X17_errors_of_a_run_witness :
  RuntimeError
    "MCUboot ELF not found. For --flash mode with sysbuild, MCUboot must be built (use --sysbuild flag)"
  = ValueError "debug not supported"
  \/ (existsb (String.eqb "debug") ["attach"; "debug"; "debugserver"] = true
      /\ run_error (Sample.host_of Sample.disk_chained_no_mcuboot)
           Sample.default_runner
           (RuntimeError
              "MCUboot ELF not found. For --flash mode with sysbuild, MCUboot must be built (use --sysbuild flag)")).
Proof.
  apply (X17_errors_of_a_run (Sample.host_of Sample.disk_chained_no_mcuboot)
           Sample.default_runner "debug").
  reflexivity.
Defined.

(** X18: [do_run] raises [ValueError] exactly for a command that is none of
    [attach], [debug] and [debugserver], with the message that names the
    command; the three commands never end with this error. *)
Theorem X18_value_error_iff_unsupported (h : Host) (self : Runner)
    (command msg : string) :
  do_run h self command = Raise (ValueError msg) <->
  existsb (String.eqb command) ["attach"; "debug"; "debugserver"] = false
  /\ msg = (command ++ " not supported")%string.
Proof.
  unfold do_run.
  destruct (existsb (String.eqb command) ["attach"; "debug"; "debugserver"]).
  - split; [|intros [H _]; discriminate].
    intros Hrun. apply run_errors in Hrun. inversion Hrun.
  - split.
    + intros [= <-]. auto.
    + intros [_ ->]. reflexivity.
Qed.

(** ** The ELF of the bootloader *)

Lemma find_mcuboot_elf_ok (h : Host) (self : Runner) (mcuboot_elf : string) :
  _find_mcuboot_elf h self = Ok mcuboot_elf ->
  exists p,
    mcuboot_elf = as_posix h p
    /\ path_exists h p = true
    /\ (p = mcuboot_elf_path h self
        \/ (p = mcuboot_elf_alt_path h self
            /\ path_exists h (mcuboot_elf_path h self) = false)).
Proof.
  unfold _find_mcuboot_elf.
  fold (mcuboot_elf_path h self). fold (mcuboot_elf_alt_path h self).
  destruct (path_exists h (mcuboot_elf_path h self)) eqn:Hfirst.
  - intros [= <-]. exists (mcuboot_elf_path h self). auto.
  - destruct (path_exists h (mcuboot_elf_alt_path h self)) eqn:Halt; [|discriminate].
    intros [= <-]. exists (mcuboot_elf_alt_path h self). auto.
Qed.

(** X19: in the mode FlashChained the file a debug session hands to the
    debugger as its program, the last argument, is the ELF of the
    bootloader, and it exists: it is the one under the build folder, or,
    only when that one is absent, the one beside the build folder. *)
Theorem X19_bootloader_elf_exists (h : Host) (self : Runner) (s : spawn) :
  mode_of h self = FlashChained ->
  do_run h self (command_of DebugNew) = Ok s ->
  exists client p,
    client_of s = Some client
    /\ last client EmptyString = as_posix h p
    /\ path_exists h p = true
    /\ (p = mcuboot_elf_path h self
        \/ (p = mcuboot_elf_alt_path h self
            /\ path_exists h (mcuboot_elf_path h self) = false)).
Proof.
  intros Hmode. rewrite do_run_command. intros Hrun.
  apply planned_ok_inv in Hrun.
  destruct Hrun as (elf & gp & cp & flag & gdb_args & _ & _ & Hbranch & _ & Hs).
  apply branch_cases in Hbranch.
  destruct Hbranch as [(Hc & _) | [(_ & _ & _ & m & Hfind & ->) | (_ & Hn & _)]];
    [discriminate | | contradiction].
  destruct Hs as [(Hc & _) | (_ & gdb_exe & _ & ->)]; [discriminate|].
  apply find_mcuboot_elf_ok in Hfind. destruct Hfind as (p & -> & Hexists & Hwhich).
  exists (gdb_exe :: two_phase_gdb_args self (as_posix h (Path h elf)) (as_posix h p)), p.
  repeat split; assumption.
Qed.

Lemma X19_bootloader_elf_exists_witness :
  exists client p,
    client_of Sample.two_phase_spawn = Some client
    /\ last client EmptyString = as_posix (Sample.host_of Sample.disk_chained) p
    /\ path_exists (Sample.host_of Sample.disk_chained) p = true
    /\ (p = mcuboot_elf_path (Sample.host_of Sample.disk_chained) Sample.default_runner
        \/ (p = mcuboot_elf_alt_path (Sample.host_of Sample.disk_chained)
                  Sample.default_runner
            /\ path_exists (Sample.host_of Sample.disk_chained)
                 (mcuboot_elf_path (Sample.host_of Sample.disk_chained)
                    Sample.default_runner) = false)).
Proof.
  apply (X19_bootloader_elf_exists (Sample.host_of Sample.disk_chained)
           Sample.default_runner Sample.two_phase_spawn); reflexivity.
Defined.

(** ** The failures of the locator *)

(** X20: the locator fails in two ways only.  It raises [Unsupported OS]
    exactly on a platform that is none of Linux, Windows and Darwin, where
    the search path is not even tried; and it reports the server as missing
    exactly when the platform is one of the three, the two tools are not
    both taken from the search path, and the folder of the platform holds
    no installation. *)
Theorem X20_locator_failures (h : Host) (e : exn) :
  CubeCLT._get_stm32cubeclt_paths h = Raise e <->
  (e = RuntimeError "Unsupported OS" /\ supported_os h = false)
  \/ (e = MissingProgram "ST-LINK_gdbserver (from STM32CubeCLT)"
      /\ paths_from_which h = None
      /\ exists search_path tool_suffix,
           os_search_path h = Ok (search_path, tool_suffix)
           /\ find_highest_clt_version h (Path h search_path) = None).
Proof.
  unfold _get_stm32cubeclt_paths, supported_os. cbn [existsb]. split.
  - destruct (paths_from_which h); [discriminate|].
    unfold os_search_path.
    destruct (String.eqb (platform_system h) "Linux");
      [| destruct (String.eqb (platform_system h) "Windows");
         [| destruct (String.eqb (platform_system h) "Darwin")]];
      cbn [bind orb];
      try (destruct (find_highest_clt_version h _) eqn:Hscan; [discriminate|];
           intros [= <-]; right; repeat split;
           eexists; eexists; split; [reflexivity | exact Hscan]).
    intros [= <-]. left. auto.
  - intros [(-> & Hos) | (-> & Hwhich & sp & suffix & Hsearch & Hscan)].
    + apply orb_false_iff in Hos. destruct Hos as [Hlinux Hos].
      apply orb_false_iff in Hos. destruct Hos as [Hwindows Hos].
      apply orb_false_iff in Hos. destruct Hos as [Hdarwin _].
      unfold paths_from_which, os_search_path.
      rewrite Hlinux, Hwindows, Hdarwin. reflexivity.
    + rewrite Hwhich, Hsearch. cbn [bind]. rewrite Hscan. reflexivity.
Qed.

Lemma scan_entry (h : Host) (tools_folder f : string) :
  find_highest_clt_version h tools_folder = Some f ->
  In f (iterdir h tools_folder) /\ CUBECLT_FLDR_RE_match (name h f) <> None.
Proof.
  intros Hfound. apply find_highest_is_greatest in Hfound.
  destruct Hfound as (v & Hin & _).
  apply in_installations in Hin.
  destruct Hin as (Hf & m1 & m2 & m3 & Hmatch & _).
  split; [assumption|]. rewrite Hmatch. discriminate.
Qed.

Lemma port_read_back (h : Host) (self : Runner) (command : string) (s : spawn) :
  do_attach_debug_debugserver h self command = Ok s ->
  option_value "--port-number" (tl (server_of s)) = Some (Py.str (_gdb_port self)).
Proof.
  rewrite do_attach_debug_debugserver_planned. intros Hrun.
  apply planned_ok_inv in Hrun.
  destruct Hrun as (elf & gp & cp & flag & gdb_args & _ & _ & _ & _ & Hs).
  destruct Hs as [(_ & ->) | (_ & gdb_exe & _ & ->)]; reflexivity.
Qed.

(** ** A toolchain found by the scan *)

(** X21: when the tools are not taken from the search path and the locator
    succeeds, the server executable and the programmer folder lie in one
    and the same installation, an entry of the folder of the platform whose
    name matches the pattern; the executable has the suffix [.exe] on
    Windows and none elsewhere. *)
Theorem X21_scanned_toolchain (h : Host) (gdbserver_path cubeprg_path : string) :
  paths_from_which h = None ->
  CubeCLT._get_stm32cubeclt_paths h = Ok (gdbserver_path, cubeprg_path) ->
  exists search_path tool_suffix clt,
    os_search_path h = Ok (search_path, tool_suffix)
    /\ tool_suffix
       = (if String.eqb (platform_system h) "Windows" then ".exe" else "")
    /\ In clt (iterdir h (Path h search_path))
    /\ CUBECLT_FLDR_RE_match (name h clt) <> None
    /\ gdbserver_path
       = joinpath h (joinpath h (joinpath h clt "STLink-gdb-server") "bin")
           ("ST-LINK_gdbserver" ++ tool_suffix)
    /\ cubeprg_path = joinpath h (joinpath h clt "STM32CubeProgrammer") "bin".
Proof.
  intros Hwhich. unfold _get_stm32cubeclt_paths. rewrite Hwhich.
  destruct (os_search_path h) as [[sp suffix]|e] eqn:Hsearch; [|discriminate].
  cbn [bind].
  destruct (find_highest_clt_version h (Path h sp)) as [clt|] eqn:Hscan;
    [|discriminate].
  intros [= <- <-].
  destruct (scan_entry h (Path h sp) clt Hscan) as [Hin Hmatch].
  exists sp, suffix, clt. repeat split; auto.
  unfold os_search_path in Hsearch.
  destruct (String.eqb_spec (platform_system h) "Linux") as [Hlinux|_].
  - injection Hsearch as <- <-. rewrite Hlinux. reflexivity.
  - destruct (String.eqb (platform_system h) "Windows").
    + injection Hsearch as <- <-. reflexivity.
    + destruct (String.eqb (platform_system h) "Darwin"); [|discriminate].
      injection Hsearch as <- <-. reflexivity.
Qed.

Lemma X21_scanned_toolchain_witness :
  exists search_path tool_suffix clt,
    os_search_path (Sample.host_of scan_a) = Ok (search_path, tool_suffix)
    /\ tool_suffix
       = (if String.eqb (platform_system (Sample.host_of scan_a)) "Windows"
          then ".exe" else "")
    /\ In clt (iterdir (Sample.host_of scan_a) (Path (Sample.host_of scan_a) search_path))
    /\ CUBECLT_FLDR_RE_match (name (Sample.host_of scan_a) clt) <> None
    /\ "/opt/st/stm32cubeclt_1.18.0/STLink-gdb-server/bin/ST-LINK_gdbserver"
       = joinpath (Sample.host_of scan_a)
           (joinpath (Sample.host_of scan_a)
              (joinpath (Sample.host_of scan_a) clt "STLink-gdb-server") "bin")
           ("ST-LINK_gdbserver" ++ tool_suffix)
    /\ "/opt/st/stm32cubeclt_1.18.0/STM32CubeProgrammer/bin"
       = joinpath (Sample.host_of scan_a)
           (joinpath (Sample.host_of scan_a) clt "STM32CubeProgrammer") "bin".
Proof.
  apply (X21_scanned_toolchain (Sample.host_of scan_a)); reflexivity.
Defined.

(** ** What an attach does not read *)

(** X22: the plan of an attach depends neither on what [readelf] prints nor
    on the lines of the configuration: on two hosts that differ in these
    alone an attach ends alike, so the mode has no part in it. *)
Theorem X22_attach_ignores_the_mode (h : Host) (self : Runner)
    (readelf : string -> option string) (lines : string -> list string) :
  do_run (with_readings h readelf lines) self (command_of Attach)
  = do_run h self (command_of Attach).
Proof.
  rewrite !do_run_command. cbn [command_of].
  unfold planned, branch. cbn [String.eqb Ascii.eqb Bool.eqb].
  reflexivity.
Qed.

(** ** The port of the session *)

(** X23: the debugger connects to the port the server listens on: in every
    session that starts a client, the client's executable is the configured
    debugger, and its first command is [target remote :] followed by the very
    text that the server is given as its port number. *)
Theorem X23_client_connects_to_server_port (h : Host) (self : Runner)
    (command : string) (server client : list string) :
  do_attach_debug_debugserver h self command = Ok (run_server_and_client server client) ->
  exists port,
    option_value "--port-number" (tl server) = Some port
    /\ hd_error (ex_commands (tl client)) = Some ("target remote :" ++ port)%string
    /\ hd_error client = gdb self.
Proof.
  intros Hrun.
  pose proof (port_read_back h self command _ Hrun) as Hport. cbn [server_of] in Hport.
  exists (Py.str (_gdb_port self)). split; [assumption|].
  rewrite do_attach_debug_debugserver_planned in Hrun.
  apply planned_ok_inv in Hrun.
  destruct Hrun as (elf & gp & cp & flag & gdb_args & _ & _ & Hbranch & _ & Hs).
  destruct Hs as [(_ & Hs) | (_ & gdb_exe & Hgdb & Hs)]; [discriminate|].
  injection Hs as -> ->. rewrite Hgdb. split; [|reflexivity].
  apply branch_cases in Hbranch.
  destruct Hbranch as [(_ & _ & ->) | [(_ & _ & _ & m & _ & ->) | (_ & _ & _ & ->)]];
    reflexivity.
Qed.

Lemma X23_client_connects_to_server_port_witness :
  exists port,
    option_value "--port-number"
      (tl (server_of loader_spawn)) = Some port
    /\ hd_error (debugger_commands loader_spawn)
       = Some ("target remote :" ++ port)%string
    /\ Some "arm-none-eabi-gdb" = gdb runner_loader.
Proof.
  apply (X23_client_connects_to_server_port (Sample.host_of disk_loader)
           runner_loader "debug").
  reflexivity.
Defined.
